(** * nupic.research: sparse MNIST experiment driver, autograd profiling mixin
      and the Greedy InfoMax loss functions

    A shallow embedding of three source files:
    - [projects/whydense/mnist/mnist_sparse_experiment.py]  (module [Mnist]),
    - [nupic/research/frameworks/pytorch/imagenet/mixins/profile_autograd.py]
      (module [Profile]),
    - [packages/greedy_infomax/.../utils/loss_utils.py]     (module [Loss]).

    Python exceptions are values of [exn]; code that raises returns
    [Raise e].  Calls into PyTorch and torchvision are recorded as events of
    a trace, and what they compute is a parameter of the model. *)

From Stdlib Require Import ZArith QArith Qcanon String Ascii List Reals Lra Lia.
From Stdlib Require Import Decimal DecimalString DecimalN Sorted.
From stdpp Require Import base gmap strings list pretty.

Local Open Scope string_scope.
Local Open Scope list_scope.

(** ** Python results and exceptions *)

Module Py.

Inductive exn : Type :=
  | KeyError (key : string)
  | IndexError (what : string)
  | LookupError (msg : string)
  | ValueError (msg : string)
  | AttributeError (attr : string)
  | SyntaxError (src : string)
  | RuntimeError (msg : string).

Inductive result (A : Type) : Type :=
  | Ok (a : A)
  | Raise (e : exn).
Arguments Ok {A} a.
Arguments Raise {A} e.

Definition is_ok {A} (r : result A) : bool :=
  match r with Ok _ => true | Raise _ => false end.

(** [KeyError] and [IndexError] are subclasses of [LookupError]. *)
Definition is_lookup_error (e : exn) : bool :=
  match e with
  | KeyError _ | IndexError _ | LookupError _ => true
  | _ => false
  end.

#[global] Instance result_ret : MRet result := fun A a => Ok a.

#[global] Instance result_bind : MBind result := fun A B k r =>
  match r with
  | Ok a => k a
  | Raise e => Raise e
  end.

(** [l[i]] on a Python list, for a non-negative index. *)
Definition index {A} (what : string) (l : list A) (i : nat) : result A :=
  match l !! i with
  | Some a => Ok a
  | None => Raise (IndexError what)
  end.

(** [d[k]] on a Python dict with string keys. *)
Definition getitem {A} (d : gmap string A) (k : string) : result A :=
  match d !! k with
  | Some a => Ok a
  | None => Raise (KeyError k)
  end.

(** [for x in l] with a body that may raise, from the state [s]. *)
Fixpoint for_each {A S} (body : S -> A -> result S) (s : S) (l : list A)
  : result S :=
  match l with
  | [] => Ok s
  | x :: rest => s' ← body s x; for_each body s' rest
  end.

End Py.

Export Py.


(** ** [mnist_sparse_experiment.py] *)

Module Mnist.

Local Open Scope Z_scope.

(** *** Numbers written in Python source

    [_createLearningRateScheduler] prints [learning_rate_factor] with [str]
    and reads the text back with [eval].  A non-negative Python float is
    modelled by its decimal notation: the integer before the point and the
    digits after it (exponent notation is not modelled). *)

Record pyfloat : Type := PyFloat { fint : N; ffrac : Decimal.uint }.

Inductive pynum : Type :=
  | PInt (n : N)
  | PFloat (f : pyfloat).

(** [str] of a number. *)
Definition str_N (n : N) : string :=
  DecimalString.NilZero.string_of_uint (N.to_uint n).

Definition str_float (f : pyfloat) : string :=
  str_N (fint f) +:+ "." +:+ DecimalString.NilEmpty.string_of_uint (ffrac f).

(** *** [eval] on the text of a dict display

    Python's [eval] is modelled on the strings the scheduler parameters are
    written in: a dict display [{'key': number, ...}] with quoted keys and
    unsigned decimal numbers.  Any other text is a [SyntaxError] of the
    model. *)

Inductive token : Type :=
  | TLBrace | TRBrace | TColon | TComma
  | TKey (k : string)
  | TNum (n : string).

Inductive mode : Type :=
  | Top
  | InKey (acc : string)
  | InNum (acc : string).

Definition is_num_char (c : ascii) : bool :=
  (Ascii.eqb c "." || ((48 <=? nat_of_ascii c)%nat && (nat_of_ascii c <=? 57)%nat))%bool.

Definition is_space (c : ascii) : bool :=
  Ascii.eqb c " ".

Definition snoc (s : string) (c : ascii) : string := s +:+ String c "".

Fixpoint lex (m : mode) (s : string) : option (list token) :=
  match s with
  | "" =>
      match m with
      | Top => Some []
      | InNum acc => Some [TNum acc]
      | InKey _ => None
      end
  | String c s' =>
      let top :=
        if Ascii.eqb c "{" then cons TLBrace <$> lex Top s'
        else if Ascii.eqb c "}" then cons TRBrace <$> lex Top s'
        else if Ascii.eqb c ":" then cons TColon <$> lex Top s'
        else if Ascii.eqb c "," then cons TComma <$> lex Top s'
        else if Ascii.eqb c "'" then lex (InKey "") s'
        else if is_space c then lex Top s'
        else if is_num_char c then lex (InNum (String c "")) s'
        else None in
      match m with
      | Top => top
      | InKey acc =>
          if Ascii.eqb c "'" then cons (TKey acc) <$> lex Top s'
          else lex (InKey (snoc acc c)) s'
      | InNum acc =>
          if is_num_char c then lex (InNum (snoc acc c)) s'
          else cons (TNum acc) <$> top
      end
  end.

(** The text of a number, cut at its first point. *)
Fixpoint split_dot (s : string) : string * option string :=
  match s with
  | "" => ("", None)
  | String c s' =>
      if Ascii.eqb c "." then ("", Some s')
      else let '(a, b) := split_dot s' in (String c a, b)
  end.

Fixpoint all_num (s : string) : bool :=
  match s with
  | "" => true
  | String c s' => is_num_char c && all_num s'
  end.

Fixpoint no_dot (s : string) : bool :=
  match s with
  | "" => true
  | String c s' => negb (Ascii.eqb c ".") && no_dot s'
  end.

Definition parse_N (s : string) : option N :=
  N.of_uint <$> DecimalString.NilZero.uint_of_string s.

Definition parse_num (s : string) : option pynum :=
  match split_dot s with
  | (ip, None) => PInt <$> parse_N ip
  | (ip, Some fp) =>
      match ip, fp with
      | "", "" => None
      | _, _ =>
          i ← (match ip with "" => Some 0%N | _ => parse_N ip end);
          f ← DecimalString.NilEmpty.uint_of_string fp;
          Some (PFloat (PyFloat i f))
      end
  end.

(** The items of the display; a later key overrides an earlier one, as in
    Python. *)
Fixpoint parse_items (ts : list token) : option (gmap string pynum) :=
  match ts with
  | TKey k :: TColon :: TNum n :: rest =>
      v ← parse_num n;
      match rest with
      | [TRBrace] => Some {[ k := v ]}
      | TComma :: rest' => d ← parse_items rest'; Some (d ∪ {[ k := v ]})
      | _ => None
      end
  | _ => None
  end.

Definition parse_dict (ts : list token) : option (gmap string pynum) :=
  match ts with
  | [TLBrace; TRBrace] => Some ∅
  | TLBrace :: rest => parse_items rest
  | _ => None
  end.

Definition py_eval_dict (src : string) : result (gmap string pynum) :=
  match lex Top src ≫= parse_dict with
  | Some d => Ok d
  | None => Raise (SyntaxError src)
  end.

(** *** The network and its builder *)

Inductive Layer : Type :=
  | Conv2d (in_channels out_channels kernel_size padding stride : Z)
  | SparseWeights2d (module : Layer) (weight_sparsity : Q)
  | BatchNorm2d (num_features : Z) (affine : bool)
  | MaxPool2d (kernel_size : Z)
  | KWinners2d (channels : Z) (percent_on kInferenceFactor boostStrength
                boostStrengthFactor : Q)
  | ReLU
  | Flatten
  | Linear (in_features out_features : Z)
  | SparseWeights (module : Layer) (weight_sparsity : Q)
  | KWinners (n : Z) (percent_on kInferenceFactor boostStrength
              boostStrengthFactor : Q)
  | LogSoftmax (dim : Z).

(** [nn.Sequential]: the ordered dict of its named modules. *)
Definition Network : Type := list (string * Layer).

Fixpoint add_module (network : Network) (name : string) (m : Layer) : Network :=
  match network with
  | [] => [(name, m)]
  | (n, l) :: rest =>
      if String.eqb n name then (n, m) :: rest
      else (n, l) :: add_module rest name m
  end.

(** [0 < x < 1.0] on floats. *)
Definition Qltb (a b : Q) : bool := negb (Qle_bool b a).

Definition in_unit_interval (x : Q) : bool := Qltb 0 x && Qltb x 1.

Definition add_cnn_layer (network : Network) (suffix in_channels out_channels : Z)
    (use_batch_norm : bool) (weight_sparsity percent_on k_inference_factor
     boost_strength boost_strength_factor : Q) : Network :=
  let cnn := Conv2d in_channels out_channels 5 0 1 in
  let network :=
    if in_unit_interval weight_sparsity
    then add_module network ("cnnSdr" +:+ pretty suffix +:+ "_cnn")
           (SparseWeights2d cnn weight_sparsity)
    else add_module network ("cnnSdr" +:+ pretty suffix +:+ "_cnn") cnn in
  let network :=
    if use_batch_norm
    then add_module network ("cnnSdr" +:+ pretty suffix +:+ "_bn")
           (BatchNorm2d out_channels false)
    else network in
  let network :=
    add_module network ("cnnSdr" +:+ pretty suffix +:+ "_maxpool") (MaxPool2d 2) in
  if in_unit_interval percent_on
  then add_module network ("cnnSdr" +:+ pretty suffix +:+ "_kwinner")
         (KWinners2d out_channels percent_on k_inference_factor boost_strength
            boost_strength_factor)
  else add_module network ("cnnSdr" +:+ pretty suffix +:+ "_relu") ReLU.

Definition add_linear_layer (network : Network) (suffix input_size linear_n : Z)
    (weight_sparsity percent_on k_inference_factor boost_strength
     boost_strength_factor : Q) : Network :=
  let linear := Linear input_size linear_n in
  let network :=
    if in_unit_interval weight_sparsity
    then add_module network ("linear" +:+ pretty suffix)
           (SparseWeights linear weight_sparsity)
    else add_module network ("linear" +:+ pretty suffix) linear in
  if in_unit_interval percent_on
  then add_module network ("linear" +:+ pretty suffix +:+ "_kwinners")
         (KWinners linear_n percent_on k_inference_factor boost_strength
            boost_strength_factor)
  else add_module network ("linear" +:+ pretty suffix +:+ "_relu") ReLU.

(** *** Configuration

    The keys read with [config[...]] are fields; the keys read with
    [config.get(..., default)] are optional fields. *)

Record Config : Type := {
  name : string;
  verbose : option Z;
  seed : Z;
  data_dir : string;
  batch_size : Z;
  test_batch_size : Z;
  first_epoch_batch_size : Z;
  validation : option Q;
  learning_rate_factor : pyfloat;
  lr_scheduler_params : option string;
  cnn_input_shape : option (Z * Z * Z);
  linear_n : list Z;
  linear_percent_on : list Q;
  cnn_out_channels : list Z;
  cnn_percent_on : list Q;
  boost_strength : Q;
  weight_sparsity : Q;
  cnn_weight_sparsity : Q;
  boost_strength_factor : Q;
  k_inference_factor : Q;
  use_batch_norm : bool;
  learning_rate : Q;
  momentum : Q;
  batches_in_epoch : Z;
  batches_in_first_epoch : Z;
  optimizer : string;
  lr_scheduler : option string
}.

(** The output sizes of [nn.Conv2d] and [nn.MaxPool2d] along one spatial
    dimension, as PyTorch documents them (dilation 1; the pool's stride is its
    kernel size, no padding). *)
Definition conv2d_out (size kernel_size padding stride : Z) : Z :=
  (size + 2 * padding - (kernel_size - 1) - 1) / stride + 1.

Definition maxpool2d_out (size kernel_size : Z) : Z :=
  (size - (kernel_size - 1) - 1) / kernel_size + 1.

(** The two lines that compute the next layer's input width. *)
Definition wout (width : Z) : Z := (width - 5) + 1.

Definition maxpoolWidth (wout : Z) : Z := wout / 2.

(** One pass of the loop over the convolutional layers: the layer is added
    and the shape of the next layer's input is computed. *)
Definition cnn_layer_step (config : Config) (acc : Network * (Z * Z * Z)) (i : nat)
  : result (Network * (Z * Z * Z)) :=
  let '(model, (in_channels, height, width)) := acc in
  out_channels ← index "cnn_out_channels" (cnn_out_channels config) i;
  percent_on ← index "cnn_percent_on" (cnn_percent_on config) i;
  let model :=
    add_cnn_layer model (Z.of_nat i + 1) in_channels out_channels
      (use_batch_norm config) (cnn_weight_sparsity config) percent_on
      (k_inference_factor config) (boost_strength config)
      (boost_strength_factor config) in
  let in_channels := out_channels in
  let wout := wout width in
  let maxpoolWidth := maxpoolWidth wout in
  Ok (model, (in_channels, maxpoolWidth, maxpoolWidth)).

Definition linear_layer_step (config : Config) (acc : Network * Z) (i : nat)
  : result (Network * Z) :=
  let '(model, input_size) := acc in
  n ← index "linear_n" (linear_n config) i;
  percent_on ← index "linear_percent_on" (linear_percent_on config) i;
  let model :=
    add_linear_layer model (Z.of_nat i + 1) input_size n (weight_sparsity config)
      percent_on (k_inference_factor config) (boost_strength config)
      (boost_strength_factor config) in
  Ok (model, n).

(** [for i in range(n)] with a loop body that may raise. *)
Fixpoint for_range {A} (body : A -> nat -> result A) (acc : A) (idxs : list nat)
  : result A :=
  match idxs with
  | [] => Ok acc
  | i :: rest => acc' ← body acc i; for_range body acc' rest
  end.

Definition build_cnn (config : Config) : result (Network * (Z * Z * Z)) :=
  let input_shape := default (1, 28, 28) (cnn_input_shape config) in
  let cnn_layers := length (cnn_out_channels config) in
  for_range (cnn_layer_step config) ([], input_shape) (seq 0 cnn_layers).

(** The width after [layers] rounds of convolution and pooling. *)
Fixpoint cnn_spatial (width : Z) (layers : nat) : Z :=
  match layers with
  | O => width
  | S n => cnn_spatial (maxpoolWidth (wout width)) n
  end.

Definition build_model (config : Config) : result Network :=
  '(model, (c, h, w)) ← build_cnn config;
  let model := add_module model "flatten" Flatten in
  let input_size := c * h * w in
  '(model, input_size) ←
    for_range (linear_layer_step config) (model, input_size)
      (seq 0 (length (linear_n config)));
  let model := add_module model "output" (Linear input_size 10) in
  Ok (add_module model "softmax" (LogSoftmax 1)).

(** *** Data loaders, optimizer and scheduler *)

Inductive Transform : Type :=
  | ToTensor
  | RandomNoise (noise highValue : Q)
  | Normalize (mean std : Q).

Record Dataset : Type := MNIST {
  root : string;
  train_split : bool;
  download : bool;
  transform : list Transform
}.

Inductive Sampling : Type :=
  | Shuffle
  | TrainSampler (ratio : Q)
  | ValidationSampler (ratio : Q).

Record Loader : Type := DataLoader {
  dataset : Dataset;
  loader_batch_size : Z;
  sampling : Sampling
}.

Inductive Optimizer : Type :=
  | SGD (lr momentum : Q)
  | Adam (lr : Q).

Record Scheduler : Type := {
  clazz : string;
  scheduler_optimizer : Optimizer;
  kwargs : gmap string pynum
}.

(** The classes of [torch.optim.lr_scheduler] that
    [eval("torch.optim.lr_scheduler.{}".format(name))] finds. *)
Definition torch_optim_lr_scheduler : list string :=
  ["LambdaLR"; "StepLR"; "MultiStepLR"; "ExponentialLR"; "CosineAnnealingLR";
   "ReduceLROnPlateau"].

Definition _createOptimizer (learning_rate momentum : Q) (name : string)
  : result Optimizer :=
  if String.eqb name "SGD" then Ok (SGD learning_rate momentum)
  else if String.eqb name "Adam" then Ok (Adam learning_rate)
  else Raise (LookupError "Incorrect optimizer value").

Definition _createLearningRateScheduler (learning_rate_factor : pyfloat)
    (self_lr_scheduler_params : option string) (name : option string)
    (optimizer : Optimizer) : result (option Scheduler) :=
  match name with
  | None => Ok None
  | Some name =>
      lr_scheduler_params ←
        (if String.eqb name "StepLR"
         then Ok ("{'step_size': 1, 'gamma':" +:+ str_float learning_rate_factor +:+ "}")
         else match self_lr_scheduler_params with
              | None => Raise (ValueError ("Missing 'lr_scheduler_params' for " +:+ name))
              | Some params => Ok params
              end);
      clazz ←
        (if bool_decide (name ∈ torch_optim_lr_scheduler) then Ok name
         else Raise (AttributeError name));
      lr_scheduler_params ← py_eval_dict lr_scheduler_params;
      Ok (Some {| clazz := clazz; scheduler_optimizer := optimizer;
                  kwargs := lr_scheduler_params |})
  end.

(** *** The experiment object *)

Record Loaders : Type := {
  train_loader : Loader;
  validation_loader : option Loader;
  test_loader : Loader;
  first_loader : Loader
}.

Definition mnist_transform : list Transform :=
  [ToTensor; Normalize (1307 # 10000) (3081 # 10000)].

Definition _configureDataloaders (data_dir : string)
    (batch_size test_batch_size first_epoch_batch_size : Z) (validation : Q)
  : Loaders :=
  let train_dataset := MNIST data_dir true true mnist_transform in
  let train_loader :=
    if Qltb validation 1
    then DataLoader train_dataset batch_size (TrainSampler validation)
    else DataLoader train_dataset batch_size Shuffle in
  {| train_loader := train_loader;
     validation_loader :=
       if Qltb validation 1
       then Some (DataLoader train_dataset batch_size (ValidationSampler validation))
       else None;
     test_loader :=
       DataLoader (MNIST data_dir false false mnist_transform) test_batch_size Shuffle;
     first_loader :=
       if bool_decide (first_epoch_batch_size ≠ batch_size)
       then DataLoader train_dataset first_epoch_batch_size Shuffle
       else train_loader |}.

Record Experiment : Type := {
  config : Config;
  loaders : Loaders;
  model : Network;
  cuda : bool;
  data_parallel : bool;
  self_optimizer : Optimizer;
  self_lr_scheduler : option Scheduler
}.

(** *** Calls that leave the program

    What PyTorch and nupic.torch do is a parameter: a state [X] that their
    routines read and change.  Each call is also written to a trace. *)

Inductive Level : Type := Debug | Info.

Inductive Event : Type :=
  | SetRandomSeed (seed : Z)
  | Log (level : Level) (fmt : string)
  | TrainModel (loader : Loader) (batches_in_epoch : Z)
  | EvaluateModel (loader : Loader)
  | RezeroWeights
  | SchedulerStep.

Record External (X : Type) : Type := {
  cuda_is_available : bool;
  cuda_device_count : Z;
  trainModel : Network -> Loader -> Optimizer -> Z -> X -> X;
  evaluateModel : Network -> Loader -> X -> gmap string Q * X;
  (** [module.entropy()], or [None] for a module without that attribute. *)
  module_entropy : Layer -> X -> option Q;
  updateBoostStrength : Layer -> Layer;
  rezeroWeights : Network -> X -> X
}.
Arguments cuda_is_available {X}.
Arguments cuda_device_count {X}.
Arguments trainModel {X}.
Arguments evaluateModel {X}.
Arguments module_entropy {X}.
Arguments updateBoostStrength {X}.
Arguments rezeroWeights {X}.

Record World (X : Type) : Type := { state : X; trace : list Event }.
Arguments state {X}.
Arguments trace {X}.

(** Stateful code that may raise. *)
Definition M (X A : Type) : Type := World X -> result A * World X.

#[global] Instance M_ret {X} : MRet (M X) := fun A a w => (Ok a, w).

#[global] Instance M_bind {X} : MBind (M X) := fun A B k m w =>
  match m w with
  | (Ok a, w') => k a w'
  | (Raise e, w') => (Raise e, w')
  end.

Definition lift {X A} (r : result A) : M X A := fun w => (r, w).

Definition emit {X} (e : Event) : M X unit := fun w =>
  (Ok tt, {| state := state w; trace := trace w ++ [e] |}).

Definition call {X A} (f : X -> A * X) : M X A := fun w =>
  let '(a, x) := f (state w) in (Ok a, {| state := x; trace := trace w |}).

Definition read {X A} (f : X -> A) : M X A := fun w => (Ok (f (state w)), w).

(** [model.modules()], the container itself left out. *)
Fixpoint layer_modules (l : Layer) : list Layer :=
  l :: match l with
       | SparseWeights2d m _ | SparseWeights m _ => layer_modules m
       | _ => []
       end.

Definition modules (network : Network) : list Layer :=
  concat (map (fun nl => layer_modules (snd nl)) network).

Definition noise_levels : list Q :=
  [0; 5 # 100; 1 # 10; 15 # 100; 2 # 10; 25 # 100; 3 # 10; 35 # 100; 4 # 10;
   45 # 100; 5 # 10]%Q.

Section Driver.
Context {X : Type} (ext : External X).

Definition __init__ (config : Config) : M X Experiment :=
  emit (Log Debug "Config: %s");;
  emit (SetRandomSeed (seed config));;
  let loaders :=
    _configureDataloaders (data_dir config) (batch_size config)
      (test_batch_size config) (first_epoch_batch_size config)
      (default (50000 / 60000)%Q (validation config)) in
  model ← lift (build_model config);
  let cuda := cuda_is_available ext in
  let data_parallel := bool_decide (cuda_device_count ext > 1) in
  (if data_parallel then emit (Log Debug "Using") else mret tt);;
  emit (Log Debug "Model: %s");;
  optimizer ←
    lift (_createOptimizer (learning_rate config) (momentum config)
            (optimizer config));
  lr_scheduler ←
    lift (_createLearningRateScheduler (learning_rate_factor config)
            (lr_scheduler_params config) (lr_scheduler config) optimizer);
  mret {| config := config; loaders := loaders; model := model; cuda := cuda;
          data_parallel := data_parallel; self_optimizer := optimizer;
          self_lr_scheduler := lr_scheduler |}.

Definition postEpoch (self : Experiment) : M X Experiment :=
  let model := map (fun nl => (fst nl, updateBoostStrength ext (snd nl))) (model self) in
  call (fun x => (tt, rezeroWeights ext model x));;
  emit RezeroWeights;;
  match self_lr_scheduler self with
  | None => lift (Raise (AttributeError "step"))
  | Some _ => emit SchedulerStep
  end;;
  mret {| config := config self; loaders := loaders self; model := model;
          cuda := cuda self; data_parallel := data_parallel self;
          self_optimizer := self_optimizer self;
          self_lr_scheduler := self_lr_scheduler self |}.

Definition train (self : Experiment) (epoch : Z) : M X Experiment :=
  let '(loader, batches) :=
    if epoch =? 0
    then (first_loader (loaders self), batches_in_first_epoch (config self))
    else (train_loader (loaders self), batches_in_epoch (config self)) in
  emit (Log Info "epoch: %s");;
  match self_lr_scheduler self with
  | None => lift (Raise (AttributeError "get_lr"))
  | Some _ => emit (Log Info "learning rate: %s")
  end;;
  call (fun x => (tt, trainModel ext (model self) loader (self_optimizer self) batches x));;
  emit (TrainModel loader batches);;
  self ← postEpoch self;
  emit (Log Info "training duration: %s");;
  mret self.

(** The loop of [entropy], run in the state [x]. *)
Definition entropy_value (self : Experiment) (x : X) : Q :=
  foldl (fun entropy module =>
           match module_entropy ext module x with
           | Some e => (entropy + e)%Q
           | None => entropy
           end) 0%Q (modules (model self)).

Definition entropy (self : Experiment) : M X Q :=
  read (entropy_value self).

Definition test (self : Experiment) (loader : option Loader)
  : M X (gmap string Q) :=
  let loader := default (test_loader (loaders self)) loader in
  results ← call (evaluateModel ext (model self) loader);
  emit (EvaluateModel loader);;
  e ← entropy self;
  let results := <["entropy" := e]> results in
  emit (Log Info "testing duration: %s");;
  _ ← lift (getitem results "mean_accuracy");
  emit (Log Info "mean_accuracy: %s");;
  _ ← lift (getitem results "mean_loss");
  emit (Log Info "mean_loss: %s");;
  _ ← lift (getitem results "entropy");
  emit (Log Info "entropy: %s");;
  mret results.

Definition validate (self : Experiment) : M X (option (gmap string Q)) :=
  match validation_loader (loaders self) with
  | Some l => results ← test self (Some l); mret (Some results)
  | None => mret None
  end.

Definition noise_loader (self : Experiment) (noise : Q) : Loader :=
  let transform :=
    [ToTensor;
     RandomNoise noise ((1307 # 10000) + 2 * (3081 # 10000))%Q;
     Normalize (1307 # 10000) (3081 # 10000)] in
  DataLoader (MNIST (data_dir (config self)) false false transform)
    (test_batch_size (config self)) Shuffle.

(** The body of the loop of [runNoiseTests], from the noise levels still to
    run, the dict [ret] and the running [total_correct]. *)
Fixpoint noise_loop (self : Experiment) (noises : list Q)
    (ret : gmap Qc (gmap string Q)) (total_correct : Q)
  : M X (gmap Qc (gmap string Q)) :=
  match noises with
  | [] => mret ret
  | noise :: rest =>
      emit (Log Info "Noise: %s");;
      testResult ← test self (Some (noise_loader self noise));
      correct ← lift (getitem testResult "total_correct");
      noise_loop self rest (<[Q2Qc noise := testResult]> ret)
        (total_correct + correct)%Q
  end.

Definition runNoiseTests (self : Experiment) : M X (gmap Qc (gmap string Q)) :=
  noise_loop self noise_levels ∅ 0%Q.

(** What [test] returns for [loader] in the state [x], and the state it
    leaves, when the metrics it logs are present. *)
Definition test_metrics (self : Experiment) (loader : Loader) (x : X)
  : gmap string Q * X :=
  let '(results, x') := evaluateModel ext (model self) loader x in
  (<["entropy" := entropy_value self x']> results, x').

(** The test metrics of each noise level in turn, each test starting in the
    state the one before left. *)
Fixpoint noise_run (self : Experiment) (noises : list Q) (x : X)
  : list (Qc * gmap string Q) :=
  match noises with
  | [] => []
  | noise :: rest =>
      let '(r, x') := test_metrics self (noise_loader self noise) x in
      (Q2Qc noise, r) :: noise_run self rest x'
  end.

End Driver.

(** The loaders that [evaluateModel] was called with, in order. *)
Definition evaluated (events : list Event) : list Loader :=
  omap (fun e => match e with EvaluateModel l => Some l | _ => None end) events.

(** *** A configuration and a stub of the external routines *)

Definition example_config : Config := {|
  name := "sparse_mnist";
  verbose := Some 2;
  seed := 42;
  data_dir := "data";
  batch_size := 64;
  test_batch_size := 1000;
  first_epoch_batch_size := 4;
  validation := None;
  learning_rate_factor := PyFloat 0 (D8 Nil);
  lr_scheduler_params := None;
  cnn_input_shape := Some (1, 28, 28);
  linear_n := [150];
  linear_percent_on := [3 # 10]%Q;
  cnn_out_channels := [32];
  cnn_percent_on := [1 # 10]%Q;
  boost_strength := (3 # 2)%Q;
  weight_sparsity := (3 # 10)%Q;
  cnn_weight_sparsity := 1%Q;
  boost_strength_factor := (85 # 100)%Q;
  k_inference_factor := (3 # 2)%Q;
  use_batch_norm := false;
  learning_rate := (4 # 100)%Q;
  momentum := 0%Q;
  batches_in_epoch := 100000;
  batches_in_first_epoch := 600;
  optimizer := "SGD";
  lr_scheduler := Some "StepLR"
|}.

Definition with_optimizer (name' : string) (c : Config) : Config := {|
  name := name c; verbose := verbose c; seed := seed c; data_dir := data_dir c;
  batch_size := batch_size c; test_batch_size := test_batch_size c;
  first_epoch_batch_size := first_epoch_batch_size c;
  validation := validation c; learning_rate_factor := learning_rate_factor c;
  lr_scheduler_params := lr_scheduler_params c;
  cnn_input_shape := cnn_input_shape c; linear_n := linear_n c;
  linear_percent_on := linear_percent_on c;
  cnn_out_channels := cnn_out_channels c; cnn_percent_on := cnn_percent_on c;
  boost_strength := boost_strength c; weight_sparsity := weight_sparsity c;
  cnn_weight_sparsity := cnn_weight_sparsity c;
  boost_strength_factor := boost_strength_factor c;
  k_inference_factor := k_inference_factor c;
  use_batch_norm := use_batch_norm c; learning_rate := learning_rate c;
  momentum := momentum c; batches_in_epoch := batches_in_epoch c;
  batches_in_first_epoch := batches_in_first_epoch c;
  optimizer := name'; lr_scheduler := lr_scheduler c
|}.

Definition with_scheduler (name' : option string) (c : Config) : Config := {|
  name := name c; verbose := verbose c; seed := seed c; data_dir := data_dir c;
  batch_size := batch_size c; test_batch_size := test_batch_size c;
  first_epoch_batch_size := first_epoch_batch_size c;
  validation := validation c; learning_rate_factor := learning_rate_factor c;
  lr_scheduler_params := lr_scheduler_params c;
  cnn_input_shape := cnn_input_shape c; linear_n := linear_n c;
  linear_percent_on := linear_percent_on c;
  cnn_out_channels := cnn_out_channels c; cnn_percent_on := cnn_percent_on c;
  boost_strength := boost_strength c; weight_sparsity := weight_sparsity c;
  cnn_weight_sparsity := cnn_weight_sparsity c;
  boost_strength_factor := boost_strength_factor c;
  k_inference_factor := k_inference_factor c;
  use_batch_norm := use_batch_norm c; learning_rate := learning_rate c;
  momentum := momentum c; batches_in_epoch := batches_in_epoch c;
  batches_in_first_epoch := batches_in_first_epoch c;
  optimizer := optimizer c; lr_scheduler := name'
|}.

(** A stub test routine: the state counts the evaluations, and the metrics
    report that count as [total_correct]. *)
Definition stub_external : External nat := {|
  cuda_is_available := false;
  cuda_device_count := 0;
  trainModel := fun _ _ _ _ x => x;
  evaluateModel := fun _ _ x =>
    ({[ "mean_accuracy" := 1%Q; "mean_loss" := 0%Q;
        "total_correct" := inject_Z (Z.of_nat x) ]}, S x);
  module_entropy := fun l _ =>
    match l with KWinners _ _ _ _ _ | KWinners2d _ _ _ _ _ => Some 1%Q | _ => None end;
  updateBoostStrength := fun l => l;
  rezeroWeights := fun _ x => x
|}.

Definition empty_world : World nat := {| state := O; trace := [] |}.

End Mnist.

(** ** [profile_autograd.py] *)

Module Profile.

Local Open Scope Z_scope.

(** The values of the attributes the mixin reads and writes. *)
Inductive value : Type :=
  | VNone
  | VBool (b : bool)
  | VInt (z : Z).

(** [a == b]; a bool compares as the integer it is. *)
Definition py_eq (a b : value) : bool :=
  match a, b with
  | VNone, VNone => true
  | VNone, _ | _, VNone => false
  | VBool x, VBool y => Bool.eqb x y
  | VBool x, VInt z | VInt z, VBool x => (if x then 1 else 0) =? z
  | VInt x, VInt y => x =? y
  end.

(** The truth value of an object. *)
Definition truthy (v : value) : bool :=
  match v with
  | VNone => false
  | VBool b => b
  | VInt z => negb (z =? 0)
  end.

(** The instance: its attribute dict. *)
Definition Obj : Type := gmap string value.

Definition getattr (self : Obj) (attr : string) : result value :=
  match self !! attr with
  | Some v => Ok v
  | None => Raise (AttributeError attr)
  end.

Inductive Event : Type :=
  | ProfilerEnter (use_cuda enabled : bool)
  | TrainEpoch (epoch : Z)
  | ProfilerExit
  | LogInfoTable (sort_by : string).

Section Mixin.
(** The class after the mixin in the method resolution order, and CUDA. *)
Context {Cfg : Type}.
Variable super_setup_experiment : Cfg -> Obj -> result Obj.
Variable super_train_epoch : Z -> Obj -> result Obj.
Variable cuda_is_available : bool.

Definition setup_experiment (config : Cfg) (self : Obj) : result Obj :=
  self ← super_setup_experiment config self;
  rank ← getattr self "rank";
  Ok (<["profile_autograd" := VBool (py_eq rank (VInt 0))]> self).

(** [train_epoch] returns the exception it ends with, if any, the instance,
    and the calls it made.  The profiler's [__enter__] returns the profiler
    when it is enabled and [None] otherwise; its [__exit__] runs also when
    the epoch raises. *)
Definition train_epoch (epoch : Z) (self : Obj)
  : result Obj * list Event :=
  match getattr self "profile" with
  | Raise e => (Raise e, [])
  | Ok enabled =>
      let prof := if truthy enabled then Some tt else None in
      let entered := [ProfilerEnter cuda_is_available (truthy enabled);
                      TrainEpoch epoch] in
      match super_train_epoch epoch self with
      | Raise e => (Raise e, entered ++ [ProfilerExit])
      | Ok self =>
          match getattr self "profile" with
          | Raise e => (Raise e, entered ++ [ProfilerExit])
          | Ok profile =>
              if truthy profile && bool_decide (prof <> None)
              then (Ok self, entered ++ [ProfilerExit;
                                         LogInfoTable "self_cpu_time_total"])
              else (Ok self, entered ++ [ProfilerExit])
          end
      end
  end.

End Mixin.

(** *** A base class for the examples

    It takes the rank and the [profile] flag from the configuration, as an
    experiment class with a [profile] option does, and trains without
    changing the instance. *)
Record ExampleConfig : Type := { cfg_rank : Z; cfg_profile : bool }.

Definition example_setup_experiment (config : ExampleConfig) (self : Obj)
  : result Obj :=
  Ok (<["profile" := VBool (cfg_profile config)]>
        (<["rank" := VInt (cfg_rank config)]> self)).

Definition example_train_epoch (epoch : Z) (self : Obj) : result Obj := Ok self.

End Profile.

(** ** [loss_utils.py] *)

Module Loss.

Local Open Scope R_scope.

(** *** Numbers

    Tensor entries are real numbers.  The two places where the code divides
    by a count that can be zero, or takes the logarithm of an empty sum, give
    the infinities and the not-a-number of floating point; rounding is not
    modelled. *)

Inductive xreal : Type :=
  | Finite (r : R)
  | PInf
  | NInf
  | NaN.

Definition xadd (a b : xreal) : xreal :=
  match a, b with
  | NaN, _ | _, NaN => NaN
  | Finite x, Finite y => Finite (x + y)
  | PInf, NInf | NInf, PInf => NaN
  | PInf, _ | _, PInf => PInf
  | NInf, _ | _, NInf => NInf
  end.

Definition xopp (a : xreal) : xreal :=
  match a with
  | Finite x => Finite (- x)
  | PInf => NInf
  | NInf => PInf
  | NaN => NaN
  end.

Definition xsub (a b : xreal) : xreal := xadd a (xopp b).

(** Division by a count. *)
Definition xdiv_nat (a : xreal) (n : nat) : xreal :=
  match a with
  | Finite r =>
      match n with
      | O => if Rlt_dec 0 r then PInf else if Rlt_dec r 0 then NInf else NaN
      | S _ => Finite (r / INR n)
      end
  | PInf => PInf
  | NInf => NInf
  | NaN => NaN
  end.

(** Multiplication by a positive count. *)
Definition xscale (n : nat) (a : xreal) : xreal :=
  match a with
  | Finite r => Finite (INR n * r)
  | PInf => PInf
  | NInf => NInf
  | NaN => NaN
  end.

(** [.sum()] of a vector, from the left. *)
Definition xsum (l : list xreal) : xreal := foldl xadd (Finite 0) l.

Fixpoint rsum (n : nat) (f : nat -> R) : R :=
  match n with
  | O => 0
  | S k => rsum k f + f k
  end.

Fixpoint xsum_n (n : nat) (f : nat -> xreal) : xreal :=
  match n with
  | O => Finite 0
  | S k => xadd (xsum_n k f) (f k)
  end.

(** *** Tensors

    A prediction tensor has the shape (batch, classes, y, x); a target tensor
    has the shape (batch, y, x) and holds class indices. *)

Record Tensor : Type := {
  batch : nat;
  classes : nat;
  height : nat;
  width : nat;
  entry : nat -> nat -> nat -> nat -> R
}.

Record LongTensor : Type := {
  lbatch : nat;
  lheight : nat;
  lwidth : nat;
  label : nat -> nat -> nat -> nat
}.

(** The sum and the mean over the positions (b, y, x). *)
Definition pos_sum (b y x : nat) (f : nat -> nat -> nat -> R) : R :=
  rsum b (fun i => rsum y (fun j => rsum x (fun k => f i j k))).

Definition xpos_sum (b y x : nat) (f : nat -> nat -> nat -> xreal) : xreal :=
  xsum_n b (fun i => xsum_n y (fun j => xsum_n x (fun k => f i j k))).

Definition xmean (b y x : nat) (f : nat -> nat -> nat -> xreal) : xreal :=
  xdiv_nat (xpos_sum b y x f) (b * y * x).

Definition positions (t : Tensor) : nat := batch t * height t * width t.

(** [torch.zeros((b, y, x), dtype=torch.long)] for the shape of [log_fk]. *)
Definition torch_zeros (log_fk : Tensor) : LongTensor :=
  {| lbatch := batch log_fk; lheight := height log_fk; lwidth := width log_fk;
     label := fun _ _ _ => O |}.

(** [torch.softmax(t, dim=1)]. *)
Definition torch_softmax (t : Tensor) : Tensor :=
  {| batch := batch t; classes := classes t; height := height t; width := width t;
     entry := fun b c y x =>
       exp (entry t b c y x) / rsum (classes t) (fun j => exp (entry t b j y x)) |}.

(** [torch.log(t + eps)], applied here to entries that are positive. *)
Definition torch_log_plus (eps : R) (t : Tensor) : Tensor :=
  {| batch := batch t; classes := classes t; height := height t; width := width t;
     entry := fun b c y x => ln (entry t b c y x + eps) |}.

(** [F.log_softmax(t, dim=1)], the first half of [F.cross_entropy]. *)
Definition log_softmax (t : Tensor) : Tensor :=
  {| batch := batch t; classes := classes t; height := height t; width := width t;
     entry := fun b c y x =>
       entry t b c y x - ln (rsum (classes t) (fun j => exp (entry t b j y x))) |}.

(** The constant added before the logarithm. *)
Definition epsilon : R := 1e-11.
Arguments epsilon : simpl never.

(** The reductions that give a scalar; ['none'] is not modelled. *)
Inductive reduction : Type := Mean | Sum.

Definition labels_in_range (input : Tensor) (target : LongTensor) : bool :=
  forallb (fun b =>
    forallb (fun y =>
      forallb (fun x => (label target b y x <? classes input)%nat)
        (seq 0 (width input)))
      (seq 0 (height input)))
    (seq 0 (batch input)).

(** [F.nll_loss(input, target, reduction=reduction)]: the shapes must agree
    and every label must be a class of [input]. *)
Definition nll_loss (input : Tensor) (target : LongTensor) (r : reduction)
  : result xreal :=
  if negb (batch input =? lbatch target)%nat
  then Raise (ValueError "Expected input batch_size to match target batch_size")
  else if negb ((height input =? lheight target)%nat
                && (width input =? lwidth target)%nat)
  then Raise (RuntimeError "size mismatch")
  else if negb (labels_in_range input target)
  then Raise (IndexError "Target is out of bounds")
  else
    let total :=
      pos_sum (batch input) (height input) (width input)
        (fun b y x => - entry input b (label target b y x) y x) in
    match r with
    | Sum => Ok (Finite total)
    | Mean => Ok (xdiv_nat (Finite total) (positions input))
    end.

Definition cross_entropy (input : Tensor) (target : LongTensor) (r : reduction)
  : result xreal :=
  nll_loss (log_softmax input) target r.

(** [log_f_module_list[0][0].device] *)
Definition device (log_f_module_list : list (list Tensor)) : result unit :=
  log_f_list ← index "log_f_module_list" log_f_module_list 0;
  _ ← index "log_f_list" log_f_list 0;
  Ok tt.

(** [l[i]] for an index that may be negative. *)
Definition index_Z {A} (what : string) (l : list A) (i : Z) : result A :=
  if (0 <=? i)%Z then index what l (Z.to_nat i)
  else if (- Z.of_nat (length l) <=? i)%Z
       then index what l (Z.to_nat (Z.of_nat (length l) + i))
       else Raise (IndexError what).

(** *** The loss functions

    [targets] is a parameter of every function and is read by none. *)

Definition multiple_cross_entropy {T} (log_f_module_list : list (list Tensor))
    (targets : T) (r : reduction) : result xreal :=
  _ ← device log_f_module_list;
  for_each (fun total_loss log_f_list =>
    for_each (fun total_loss log_fk =>
      let true_fk := torch_zeros log_fk in
      loss ← cross_entropy log_fk true_fk r;
      Ok (xadd total_loss loss))
      total_loss log_f_list)
    (Finite 0) log_f_module_list.

Definition all_module_multiple_log_softmax {T}
    (log_f_module_list : list (list Tensor)) (targets : T) (r : reduction)
  : result (list xreal) :=
  _ ← device log_f_module_list;
  for_each (fun module_losses log_f_list =>
    module_loss ←
      for_each (fun module_loss log_fk =>
        let true_fk := torch_zeros log_fk in
        let softmax_fk := torch_softmax log_fk in
        let log_softmax_fk := torch_log_plus epsilon softmax_fk in
        loss ← nll_loss log_softmax_fk true_fk r;
        Ok (xadd module_loss loss))
        (Finite 0) log_f_list;
    let module_loss := xdiv_nat module_loss (length log_f_list) in
    Ok (module_losses ++ [module_loss]))
    [] log_f_module_list.

Definition module_specific_log_softmax_nll_loss {T}
    (data_lists : list (list Tensor) * list (list LongTensor)) (targets : T)
    (r : reduction) : result (list xreal) :=
  let '(log_f_module_list, true_f_module_list) := data_lists in
  _ ← device log_f_module_list;
  let total_loss := replicate (length log_f_module_list) (Finite 0) in
  for_each (fun total_loss '(i, (log_f_list, true_f_list)) =>
    total_loss ←
      for_each (fun total_loss '(log_fk, true_fk) =>
        let softmax_fk := torch_softmax log_fk in
        let log_softmax_fk := torch_log_plus epsilon softmax_fk in
        current ← index "total_loss" total_loss i;
        loss ← nll_loss log_softmax_fk true_fk r;
        Ok (<[i := xadd current loss]> total_loss))
        total_loss (zip log_f_list true_f_list);
    current ← index "total_loss" total_loss i;
    Ok (<[i := xdiv_nat current (length log_f_list)]> total_loss))
    total_loss
    (zip (seq 0 (length log_f_module_list))
         (zip log_f_module_list true_f_module_list)).

(** The call passes no [reduction], so the callee runs with its default. *)
Definition multiple_log_softmax_nll_loss {T}
    (data_lists : list (list Tensor) * list (list LongTensor)) (targets : T)
    (r : reduction) : result xreal :=
  losses ← module_specific_log_softmax_nll_loss data_lists targets Mean;
  Ok (xsum losses).

(** [torch.logsumexp(log_fk[:, 1:, :, :], dim=1)] at one position: the
    logarithm of an empty sum is minus infinity. *)
Definition logsumexp_negatives (log_fk : Tensor) (b y x : nat) : xreal :=
  match (classes log_fk - 1)%nat with
  | O => NInf
  | S _ as n => Finite (ln (rsum n (fun j => exp (entry log_fk b (S j) y x))))
  end.

Definition true_gim_term (log_fk : Tensor) : result xreal :=
  if (classes log_fk =? 0)%nat
  then Raise (IndexError "index 0 is out of bounds for dimension 1 with size 0")
  else
    let numerator := fun b y x => Finite (entry log_fk b O y x) in
    let denominator :=
      xmean (batch log_fk) (height log_fk) (width log_fk)
        (logsumexp_negatives log_fk) in
    Ok (xmean (batch log_fk) (height log_fk) (width log_fk)
          (fun b y x => xsub (numerator b y x) denominator)).

Definition true_gim_loss {T}
    (data_lists : list (list Tensor) * list (list LongTensor)) (targets : T)
    (r : reduction) : result xreal :=
  let '(log_f_module_list, true_f_module_list) := data_lists in
  _ ← device log_f_module_list;
  for_each (fun total_loss '(log_f_list, true_f_list) =>
    for_each (fun total_loss '(log_fk, _) =>
      term ← true_gim_term log_fk;
      Ok (xadd total_loss term))
      total_loss (zip log_f_list true_f_list))
    (Finite 0) (zip log_f_module_list true_f_module_list).

Definition module_specific_cross_entropy {T}
    (data_lists : list (list Tensor) * list (list LongTensor)) (targets : T)
    (r : reduction) (module : Z) : result xreal :=
  let '(log_f_module_list, true_f_module_list) := data_lists in
  _ ← device log_f_module_list;
  log_f_list ← index_Z "log_f_module_list" log_f_module_list module;
  true_f_list ← index_Z "true_f_module_list" true_f_module_list module;
  for_each (fun total_loss '(log_fk, true_fk) =>
    loss ← cross_entropy log_fk true_fk r;
    Ok (xadd total_loss loss))
    (Finite 0) (zip log_f_list true_f_list).

(** *** Tensors for the examples *)

(** Every entry is [v]. *)
Definition uniform (b c y x : nat) (v : R) : Tensor :=
  {| batch := b; classes := c; height := y; width := x;
     entry := fun _ _ _ _ => v |}.

(** One position with the two logits 0 and 1. *)
Definition ramp : Tensor :=
  {| batch := 1; classes := 2; height := 1; width := 1;
     entry := fun _ c _ _ => INR c |}.

(** Every label is [k]. *)
Definition labels (b y x k : nat) : LongTensor :=
  {| lbatch := b; lheight := y; lwidth := x; label := fun _ _ _ => k |}.

(** Two positions with the two logits 0 and 0, and the targets for them. *)
Definition example_data : list (list Tensor) * list (list LongTensor) :=
  ([[uniform 2 2 1 1 0]], [[labels 2 1 1 0]]).

(** *** Closed forms

    The loss of one horizon in the two softmax variants, and the loops of the
    loss functions written as maps and sums; the properties below relate
    them to the loops. *)

Definition softmax_nll (r : reduction) (log_fk : Tensor) (true_fk : LongTensor)
  : result xreal :=
  nll_loss (torch_log_plus epsilon (torch_softmax log_fk)) true_fk r.

(** The losses of the horizons of every module, module by module. *)
Definition horizon_losses {A} (loss : A -> result xreal) (modules : list (list A))
  : result (list (list xreal)) :=
  mapM (mapM loss) modules.

(** A module's horizon losses, summed and divided by [horizons]. *)
Definition horizon_average (horizons : nat) (losses : list xreal) : xreal :=
  xdiv_nat (xsum losses) horizons.

Definition zip_modules (data_lists : list (list Tensor) * list (list LongTensor))
  : list (list (Tensor * LongTensor)) :=
  zip_with zip data_lists.1 data_lists.2.

End Loss.

(** * Properties of the experiment driver *)

Module MnistFacts.
Import Mnist.

Local Open Scope list_scope.
Local Open Scope Z_scope.

(** ** The size of the convolutional output *)

Lemma cnn_layer_step_shape config model c h w i oc p :
  cnn_out_channels config !! i = Some oc ->
  cnn_percent_on config !! i = Some p ->
  exists model',
    cnn_layer_step config (model, (c, h, w)) i
    = Ok (model', (oc, maxpoolWidth (wout w), maxpoolWidth (wout w))).
Proof.
  intros Hoc Hp. unfold cnn_layer_step, index. rewrite Hoc, Hp. simpl.
  eexists. reflexivity.
Qed.

Lemma build_cnn_loop config n : forall k model c h w,
  (k + n <= length (cnn_out_channels config))%nat ->
  (k + n <= length (cnn_percent_on config))%nat ->
  exists model' shape,
    for_range (cnn_layer_step config) (model, (c, h, w)) (seq k n)
    = Ok (model', shape) /\
    match n with
    | O => shape = (c, h, w)
    | S m => exists oc, cnn_out_channels config !! (k + m)%nat = Some oc /\
                        shape = (oc, cnn_spatial w n, cnn_spatial w n)
    end.
Proof.
  induction n as [|n IH]; intros k model c h w Hoc Hp.
  - simpl. eauto.
  - destruct (lookup_lt_is_Some_2 (cnn_out_channels config) k) as [oc Eoc]; [lia|].
    destruct (lookup_lt_is_Some_2 (cnn_percent_on config) k) as [p Ep]; [lia|].
    destruct (cnn_layer_step_shape config model c h w k oc p Eoc Ep) as [m1 E1].
    cbn [seq for_range]. rewrite E1. cbn [mbind result_bind].
    destruct (IH (S k) m1 oc (maxpoolWidth (wout w)) (maxpoolWidth (wout w)))
      as (m2 & shape & E2 & Hshape); [lia | lia |].
    exists m2, shape. split; [exact E2|].
    destruct n as [|n'].
    + subst shape. exists oc. rewrite Nat.add_0_r. auto.
    + destruct Hshape as (oc' & Eoc' & ->). exists oc'.
      replace (k + S n')%nat with (S k + n')%nat by lia. auto.
Qed.

Lemma wout_is_conv2d_out w : wout w = conv2d_out w 5 0 1.
Proof. unfold wout, conv2d_out. rewrite Z.div_1_r. lia. Qed.

Lemma maxpoolWidth_is_maxpool2d_out s : maxpoolWidth s = maxpool2d_out s 2.
Proof.
  unfold maxpoolWidth, maxpool2d_out.
  replace (s - (2 - 1) - 1) with (s + (-1) * 2) by lia.
  rewrite Z.div_add by lia. lia.
Qed.

(** C7. With a [cnn_percent_on] entry for every convolutional layer, the
    builder's loop ends with the shape [(c, s, s)], where [c] is the last
    layer's channel count and [s] is the input width taken through
    [(width - 5) + 1] and the integer halving once per layer; these are the
    output sizes of a kernel-5, stride-1, unpadded convolution and of a 2x2
    max-pool.  For [cnn_out_channels = [32]] and [cnn_input_shape = (1, 28, 28)]
    the size is 12: 28 -> 24 -> 12. *)
Theorem cnn_output_spatial_size (config : Config) :
  (length (cnn_out_channels config) <= length (cnn_percent_on config))%nat ->
  cnn_out_channels config <> [] ->
  (forall w, wout w = conv2d_out w 5 0 1 /\
             maxpoolWidth (wout w) = maxpool2d_out (wout w) 2 /\
             maxpoolWidth (wout w) = ((w - 5) + 1) / 2) /\
  (exists model oc,
      last (cnn_out_channels config) = Some oc /\
      let s := cnn_spatial (default (1, 28, 28) (cnn_input_shape config)).2
                 (length (cnn_out_channels config)) in
      build_cnn config = Ok (model, (oc, s, s))) /\
  (cnn_out_channels config = [32] ->
   cnn_input_shape config = Some (1, 28, 28) ->
   wout 28 = 24 /\ maxpoolWidth 24 = 12 /\
   exists model, build_cnn config = Ok (model, (32, 12, 12))).
Proof.
  intros Hlen Hne.
  assert (Hgen : exists model oc,
      last (cnn_out_channels config) = Some oc /\
      let s := cnn_spatial (default (1, 28, 28) (cnn_input_shape config)).2
                 (length (cnn_out_channels config)) in
      build_cnn config = Ok (model, (oc, s, s))).
  { unfold build_cnn.
    destruct (default (1, 28, 28) (cnn_input_shape config)) as [[c h] w] eqn:Es.
    destruct (build_cnn_loop config (length (cnn_out_channels config)) 0 [] c h w)
      as (model & shape & E & Hshape); [lia | simpl; lia |].
    destruct (length (cnn_out_channels config)) as [|m] eqn:El.
    - destruct (cnn_out_channels config); [congruence | discriminate].
    - destruct Hshape as (oc & Eoc & ->). exists model, oc. split.
      + rewrite last_lookup, El. exact Eoc.
      + exact E. }
  split; [|split].
  - intros w. split; [apply wout_is_conv2d_out|].
    split; [apply maxpoolWidth_is_maxpool2d_out | reflexivity].
  - exact Hgen.
  - intros E32 Eshape. split; [reflexivity|]. split; [reflexivity|].
    destruct Hgen as (model & oc & Elast & E).
    rewrite E32 in Elast. injection Elast as <-.
    rewrite E32, Eshape in E. exists model. exact E.
Qed.

(** ** Printing a number and reading it back *)

Lemma string_app_cons (x : ascii) (a b : string) :
  String x a +:+ b = String x (a +:+ b).
Proof. reflexivity. Qed.

Lemma string_app_assoc (a b c : string) : (a +:+ b) +:+ c = a +:+ (b +:+ c).
Proof.
  induction a as [|x a IH]; [reflexivity|].
  rewrite !string_app_cons. now rewrite IH.
Qed.

Lemma all_num_app a b : all_num (a +:+ b) = (all_num a && all_num b)%bool.
Proof.
  induction a as [|x a IH]; [reflexivity|].
  rewrite string_app_cons. simpl. rewrite IH. now rewrite andb_assoc.
Qed.

Lemma digits_all_num d :
  all_num (NilEmpty.string_of_uint d) = true /\
  no_dot (NilEmpty.string_of_uint d) = true.
Proof. induction d; simpl; tauto. Qed.

Lemma str_N_digits n :
  all_num (str_N n) = true /\ no_dot (str_N n) = true /\ str_N n <> "".
Proof.
  unfold str_N, NilZero.string_of_uint.
  destruct (N.to_uint n) eqn:E; try (split; [|split]; [ | | discriminate ]);
    try apply (digits_all_num (_ u)); try reflexivity; try discriminate.
Qed.

Lemma string_app_nil_r (a : string) : a +:+ "" = a.
Proof.
  induction a as [|x a IH]; [reflexivity|].
  rewrite string_app_cons. now rewrite IH.
Qed.

Lemma parse_N_str_N n : parse_N (str_N n) = Some n.
Proof.
  unfold parse_N, str_N. rewrite NilZero.usu.
  - simpl. now rewrite DecimalN.Unsigned.of_to.
  - destruct n as [|p]; [discriminate|]. apply DecimalPos.Unsigned.to_uint_nonnil.
Qed.

Lemma split_dot_app a b :
  no_dot a = true -> split_dot (a +:+ "." +:+ b) = (a, Some b).
Proof.
  induction a as [|x a IH]; intros H.
  - reflexivity.
  - rewrite string_app_cons. simpl in H. apply andb_prop in H as [Hx Ha].
    simpl. destruct (Ascii.eqb x "."); [discriminate|].
    now rewrite (IH Ha).
Qed.

Lemma parse_num_str_float f : parse_num (str_float f) = Some (PFloat f).
Proof.
  destruct f as [n d]. unfold parse_num, str_float. simpl fint. simpl ffrac.
  destruct (str_N_digits n) as (_ & Hdot & Hne).
  rewrite (split_dot_app _ _ Hdot).
  pose proof (parse_N_str_N n) as HN.
  destruct (str_N n) as [|c s]; [congruence|].
  rewrite HN, NilEmpty.usu. reflexivity.
Qed.

Lemma is_num_char_top c :
  is_num_char c = true ->
  Ascii.eqb c "{" = false /\ Ascii.eqb c "}" = false /\ Ascii.eqb c ":" = false /\
  Ascii.eqb c "," = false /\ Ascii.eqb c "'" = false /\ is_space c = false.
Proof.
  destruct c as [[] [] [] [] [] [] [] []]; intros H; try discriminate H;
    repeat split; reflexivity.
Qed.

Lemma lex_num_run ds : forall acc rest,
  all_num ds = true ->
  lex (InNum acc) (ds +:+ rest) = lex (InNum (acc +:+ ds)) rest.
Proof.
  induction ds as [|c ds IH]; intros acc rest H.
  - now rewrite string_app_nil_r.
  - rewrite string_app_cons. simpl in H. apply andb_prop in H as [Hc Hds].
    cbn [lex]. rewrite Hc, (IH _ _ Hds). unfold snoc.
    now rewrite string_app_assoc.
Qed.

Lemma lex_top_num s rest :
  all_num s = true -> s <> "" -> lex Top (s +:+ rest) = lex (InNum s) rest.
Proof.
  destruct s as [|c s]; [congruence|]. intros H _.
  simpl in H. apply andb_prop in H as [Hc Hs].
  rewrite string_app_cons. cbn [lex].
  destruct (is_num_char_top c Hc) as (-> & -> & -> & -> & -> & ->).
  rewrite Hc. now rewrite (lex_num_run s _ _ Hs).
Qed.

Lemma str_float_num f : all_num (str_float f) = true /\ str_float f <> "".
Proof.
  unfold str_float. destruct (str_N_digits (fint f)) as (Hn & _ & Hne).
  split.
  - rewrite !all_num_app, Hn. simpl.
    now rewrite (proj1 (digits_all_num (ffrac f))).
  - destruct (str_N (fint f)); [congruence | discriminate].
Qed.

(** The text that the "StepLR" case writes evaluates to the dict with step
    size 1 and the printed factor as gamma. *)
Lemma eval_StepLR_params f :
  py_eval_dict ("{'step_size': 1, 'gamma':" +:+ str_float f +:+ "}")
  = Ok (<["step_size" := PInt 1]> {[ "gamma" := PFloat f ]}).
Proof.
  unfold py_eval_dict.
  assert (Hlex : lex Top ("{'step_size': 1, 'gamma':" +:+ str_float f +:+ "}")
                 = Some [TLBrace; TKey "step_size"; TColon; TNum "1"; TComma;
                         TKey "gamma"; TColon; TNum (str_float f); TRBrace]).
  { destruct (str_float_num f) as [Hnum Hne].
    change (lex Top ("{'step_size': 1, 'gamma':" +:+ str_float f +:+ "}"))
      with (cons TLBrace <$> (cons (TKey "step_size") <$> (cons TColon <$>
             (cons (TNum "1") <$> (cons TComma <$> (cons (TKey "gamma") <$>
               (cons TColon <$> lex Top (str_float f +:+ "}")))))))).
    rewrite (lex_top_num _ _ Hnum Hne). reflexivity. }
  rewrite Hlex. cbn [mbind option_bind parse_dict parse_items].
  change (parse_num "1") with (Some (PInt 1)).
  rewrite parse_num_str_float. cbn [mbind option_bind].
  reflexivity.
Qed.

(** ** Construction *)

Lemma for_range_lookup_error {A} (body : A -> nat -> result A) :
  (forall a i e, body a i = Raise e -> is_lookup_error e = true) ->
  forall idxs a e, for_range body a idxs = Raise e -> is_lookup_error e = true.
Proof.
  intros Hbody idxs. induction idxs as [|i idxs IH]; intros a e H.
  - discriminate.
  - cbn [for_range] in H. destruct (body a i) as [a'|e'] eqn:E.
    + exact (IH _ _ H).
    + injection H as <-. exact (Hbody _ _ _ E).
Qed.

Lemma index_lookup_error {A} what (l : list A) i e :
  index what l i = Raise e -> is_lookup_error e = true.
Proof. unfold index. destruct (l !! i); [discriminate|]. now intros [= <-]. Qed.

(** The builder raises nothing but the [IndexError] of a list that is too
    short. *)
Lemma build_model_lookup_error config e :
  build_model config = Raise e -> is_lookup_error e = true.
Proof.
  unfold build_model, build_cnn. intros H.
  destruct (for_range (cnn_layer_step config) _ _) as [[m1 [[c h] w]]|e1] eqn:E1.
  - cbn [mbind result_bind] in H.
    destruct (for_range (linear_layer_step config) _ _) as [[m2 sz]|e2] eqn:E2.
    + discriminate.
    + injection H as <-. revert E2. apply for_range_lookup_error.
      intros [m sz] i e. unfold linear_layer_step.
      destruct (index "linear_n" _ i) as [n|] eqn:En.
      * destruct (index "linear_percent_on" _ i) eqn:Ep; [discriminate|].
        intros [= <-]. exact (index_lookup_error _ _ _ _ Ep).
      * intros [= <-]. exact (index_lookup_error _ _ _ _ En).
  - injection H as <-. revert E1. apply for_range_lookup_error.
    intros [m [[c h] w]] i e. unfold cnn_layer_step.
    destruct (index "cnn_out_channels" _ i) as [n|] eqn:En.
    + destruct (index "cnn_percent_on" _ i) eqn:Ep; [discriminate|].
      intros [= <-]. exact (index_lookup_error _ _ _ _ Ep).
    + intros [= <-]. exact (index_lookup_error _ _ _ _ En).
Qed.

Section Construction.
Context {X : Type} (ext : External X).

(** The events of a construction: logging and the random seed. *)
Definition init_events (config : Config) (built : bool) : list Event :=
  [Log Debug "Config: %s"; SetRandomSeed (seed config)] ++
  (if built
   then (if bool_decide (cuda_device_count ext > 1) then [Log Debug "Using"] else [])
        ++ [Log Debug "Model: %s"]
   else []).

Lemma init_unfold (config : Config) (w : World X) :
  __init__ ext config w =
  match build_model config with
  | Raise e =>
      (Raise e, {| state := state w; trace := trace w ++ init_events config false |})
  | Ok model =>
      (optimizer ←
         _createOptimizer (learning_rate config) (momentum config) (optimizer config);
       lr_scheduler ←
         _createLearningRateScheduler (learning_rate_factor config)
           (lr_scheduler_params config) (lr_scheduler config) optimizer;
       Ok {| config := config;
             loaders :=
               _configureDataloaders (data_dir config) (batch_size config)
                 (test_batch_size config) (first_epoch_batch_size config)
                 (default (50000 / 60000)%Q (validation config));
             model := model; cuda := cuda_is_available ext;
             data_parallel := bool_decide (cuda_device_count ext > 1);
             self_optimizer := optimizer; self_lr_scheduler := lr_scheduler |},
       {| state := state w; trace := trace w ++ init_events config true |})
  end.
Proof.
  unfold __init__, init_events, emit, lift, mbind, M_bind, mret, M_ret,
    result_bind.
  cbn [state trace].
  destruct (build_model config) as [model|e]; cbn [state trace].
  - destruct (bool_decide (cuda_device_count ext > 1)); cbn [state trace];
      destruct (_createOptimizer _ _ _) as [o|e];
      try destruct (_createLearningRateScheduler _ _ _ _) as [sc|e];
      rewrite <- ?app_assoc; reflexivity.
  - rewrite <- ?app_assoc. rewrite app_nil_r. reflexivity.
Qed.

Lemma init_events_no_training config built l b :
  TrainModel l b ∉ init_events config built.
Proof.
  unfold init_events. intros H.
  destruct built; [destruct (bool_decide _)|]; cbn in H;
    repeat (apply elem_of_cons in H as [H|H]; [discriminate|]);
    now apply elem_of_nil in H.
Qed.

End Construction.

Lemma createOptimizer_other lr m name :
  name <> "SGD" -> name <> "Adam" ->
  _createOptimizer lr m name = Raise (LookupError "Incorrect optimizer value").
Proof.
  intros H1 H2. unfold _createOptimizer.
  destruct (String.eqb_spec name "SGD"); [contradiction|].
  destruct (String.eqb_spec name "Adam"); [contradiction|]. reflexivity.
Qed.

(** C5. [_createOptimizer] makes an SGD optimizer with the configured
    momentum for "SGD" and an Adam optimizer for "Adam"; for any other name it
    raises [LookupError].  A construction with such a name ends in a lookup
    failure and has called no training routine; a construction that succeeds
    holds the optimizer its name selects. *)
Theorem optimizer_selection {X : Type} (ext : External X) :
  (forall lr m, _createOptimizer lr m "SGD" = Ok (SGD lr m)) /\
  (forall lr m, _createOptimizer lr m "Adam" = Ok (Adam lr)) /\
  (forall lr m name, name <> "SGD" -> name <> "Adam" ->
     _createOptimizer lr m name = Raise (LookupError "Incorrect optimizer value")) /\
  (forall config w, optimizer config <> "SGD" -> optimizer config <> "Adam" ->
     exists e events,
       __init__ ext config w
       = (Raise e, {| state := state w; trace := trace w ++ events |}) /\
       is_lookup_error e = true /\
       (is_ok (build_model config) = true ->
        e = LookupError "Incorrect optimizer value") /\
       forall l b, TrainModel l b ∉ events) /\
  (forall config w self w', __init__ ext config w = (Ok self, w') ->
     (optimizer config = "SGD" /\
      self_optimizer self = SGD (learning_rate config) (momentum config)) \/
     (optimizer config = "Adam" /\
      self_optimizer self = Adam (learning_rate config))).
Proof.
  split; [reflexivity|]. split; [reflexivity|].
  split; [exact createOptimizer_other|]. split.
  - intros config w H1 H2. rewrite init_unfold.
    destruct (build_model config) as [model|e] eqn:Eb.
    + rewrite (createOptimizer_other _ _ _ H1 H2). cbn [mbind result_bind].
      eexists _, _. split; [reflexivity|]. split; [reflexivity|].
      split; [reflexivity|]. apply init_events_no_training.
    + eexists _, _. split; [reflexivity|].
      split; [exact (build_model_lookup_error _ _ Eb)|].
      split; [discriminate|]. apply init_events_no_training.
  - intros config w self w'. rewrite init_unfold.
    destruct (build_model config) as [model|e]; [|discriminate].
    unfold _createOptimizer.
    destruct (String.eqb_spec (optimizer config) "SGD") as [E|_].
    + cbn [mbind result_bind].
      destruct (_createLearningRateScheduler _ _ _ _); [|discriminate].
      cbn [mbind result_bind]. intros [= <- _]. left. auto.
    + destruct (String.eqb_spec (optimizer config) "Adam") as [E|_];
        [|discriminate].
      cbn [mbind result_bind].
      destruct (_createLearningRateScheduler _ _ _ _); [|discriminate].
      cbn [mbind result_bind]. intros [= <- _]. right. auto.
Qed.

Lemma optimizer_selection_witness :
  "RMSProp" <> "SGD" /\ "RMSProp" <> "Adam" /\
  (exists events,
     __init__ stub_external (with_optimizer "RMSProp" example_config) empty_world
     = (Raise (LookupError "Incorrect optimizer value"),
        {| state := O; trace := events |}) /\
     forall l b, TrainModel l b ∉ events) /\
  (exists self w',
     __init__ stub_external example_config empty_world = (Ok self, w') /\
     self_optimizer self = SGD (4 # 100) 0).
Proof.
  split; [discriminate|]. split; [discriminate|].
  destruct (optimizer_selection stub_external) as (_ & _ & _ & Hbad & Hgood).
  split.
  - destruct (Hbad (with_optimizer "RMSProp" example_config) empty_world)
      as (e & events & E & _ & He & Hno); [discriminate | discriminate |].
    rewrite (He eq_refl) in E. exists events. split; [exact E | exact Hno].
  - destruct (__init__ stub_external example_config empty_world) as [r w'] eqn:E.
    destruct r as [self|e]; [|vm_compute in E; discriminate].
    exists self, w'. split; [reflexivity|].
    destruct (Hgood _ _ _ _ E) as [[_ H]|[H _]]; [exact H | discriminate].
Defined.

(** C6. For the name "StepLR" the supplied [lr_scheduler_params] are not
    read: the scheduler gets step size 1 and [learning_rate_factor] as gamma.
    For any other name, construction raises [ValueError] when
    [lr_scheduler_params] is absent. *)
Theorem scheduler_selection {X : Type} (ext : External X) :
  (forall lrf params optimizer,
     _createLearningRateScheduler lrf params (Some "StepLR") optimizer
     = Ok (Some {| clazz := "StepLR"; scheduler_optimizer := optimizer;
                   kwargs := <["step_size" := PInt 1]> {[ "gamma" := PFloat lrf ]} |})) /\
  (forall lrf name optimizer, name <> "StepLR" ->
     _createLearningRateScheduler lrf None (Some name) optimizer
     = Raise (ValueError ("Missing 'lr_scheduler_params' for " +:+ name))) /\
  (forall config w name,
     lr_scheduler config = Some name -> name <> "StepLR" ->
     lr_scheduler_params config = None ->
     is_ok (build_model config) = true ->
     optimizer config = "SGD" \/ optimizer config = "Adam" ->
     exists w',
       __init__ ext config w
       = (Raise (ValueError ("Missing 'lr_scheduler_params' for " +:+ name)), w')).
Proof.
  assert (Hother : forall lrf name optimizer, name <> "StepLR" ->
     _createLearningRateScheduler lrf None (Some name) optimizer
     = Raise (ValueError ("Missing 'lr_scheduler_params' for " +:+ name))).
  { intros lrf name o Hne. unfold _createLearningRateScheduler.
    destruct (String.eqb_spec name "StepLR"); [contradiction|]. reflexivity. }
  split; [|split].
  - intros lrf params o. unfold _createLearningRateScheduler.
    cbn [String.eqb Ascii.eqb Bool.eqb mbind result_bind].
    change (bool_decide ("StepLR" ∈ torch_optim_lr_scheduler)) with true.
    cbn iota. rewrite eval_StepLR_params. reflexivity.
  - exact Hother.
  - intros config w name Hs Hne Hp Hb Ho. rewrite init_unfold.
    destruct (build_model config) as [model|e]; [|discriminate].
    rewrite Hs, Hp.
    destruct Ho as [-> | ->]; cbn [_createOptimizer String.eqb Ascii.eqb Bool.eqb
      mbind result_bind]; rewrite (Hother _ _ _ Hne); eexists; reflexivity.
Qed.

Lemma scheduler_selection_witness :
  (_createLearningRateScheduler (PyFloat 0 (D8 Nil))
     (Some "{'step_size': 7, 'gamma': 0.1}") (Some "StepLR") (Adam 1)
   = Ok (Some {| clazz := "StepLR"; scheduler_optimizer := Adam 1;
                 kwargs := <["step_size" := PInt 1]>
                             {[ "gamma" := PFloat (PyFloat 0 (D8 Nil)) ]} |})) /\
  "CosineAnnealingLR" <> "StepLR" /\
  exists w',
    __init__ stub_external
      (with_scheduler (Some "CosineAnnealingLR") example_config) empty_world
    = (Raise (ValueError "Missing 'lr_scheduler_params' for CosineAnnealingLR"), w').
Proof.
  destruct (scheduler_selection stub_external) as (Hstep & _ & Hinit).
  split; [apply Hstep|]. split; [discriminate|].
  apply (Hinit (with_scheduler (Some "CosineAnnealingLR") example_config)
           empty_world "CosineAnnealingLR");
    [reflexivity | discriminate | reflexivity | vm_compute; reflexivity
    | left; reflexivity].
Defined.

Lemma cnn_output_spatial_size_witness :
  (length (cnn_out_channels example_config)
   <= length (cnn_percent_on example_config))%nat /\
  cnn_out_channels example_config <> [] /\
  exists model, build_cnn example_config = Ok (model, (32, 12, 12)).
Proof.
  split; [simpl; lia|]. split; [discriminate|].
  destruct (cnn_output_spatial_size example_config) as (_ & _ & H);
    [simpl; lia | discriminate |].
  destruct H as (_ & _ & H); [reflexivity | reflexivity | exact H].
Defined.

(** ** Noise tests *)

Section NoiseTests.
Context {X : Type} (ext : External X) (self : Experiment).

(** The metrics that [test] and [runNoiseTests] read. *)
Definition reports_metrics : Prop :=
  forall loader x,
    let r := (evaluateModel ext (model self) loader x).1 in
    is_Some (r !! "mean_accuracy") /\ is_Some (r !! "mean_loss") /\
    is_Some (r !! "total_correct").

Definition test_events (loader : Loader) : list Event :=
  [EvaluateModel loader; Log Info "testing duration: %s";
   Log Info "mean_accuracy: %s"; Log Info "mean_loss: %s";
   Log Info "entropy: %s"].

Lemma test_ok (loader : Loader) (w : World X) :
  reports_metrics ->
  test ext self (Some loader) w
  = (Ok (test_metrics ext self loader (state w)).1,
     {| state := (test_metrics ext self loader (state w)).2;
        trace := trace w ++ test_events loader |}).
Proof.
  intros Hm. specialize (Hm loader (state w)). cbn zeta in Hm.
  unfold test, test_metrics, test_events, entropy, call, read, emit, lift,
    mbind, M_bind, mret, M_ret, getitem.
  cbn [default from_option state trace]. unfold Datatypes.id.
  destruct (evaluateModel ext (model self) loader (state w)) as [r x'].
  cbn [fst snd state trace] in *.
  destruct Hm as ([a Ha] & [b Hb] & _).
  rewrite !lookup_insert_ne by discriminate. rewrite Ha, Hb.
  rewrite lookup_insert_eq. rewrite <- !app_assoc. reflexivity.
Qed.

Lemma test_metrics_total_correct (loader : Loader) (x : X) :
  reports_metrics ->
  is_Some ((test_metrics ext self loader x).1 !! "total_correct").
Proof.
  intros Hm. specialize (Hm loader x). cbn zeta in Hm. unfold test_metrics.
  destruct (evaluateModel ext (model self) loader x) as [r x'].
  cbn [fst] in *. rewrite lookup_insert_ne by discriminate. tauto.
Qed.

Definition set_entry (ret : gmap Qc (gmap string Q)) (kv : Qc * gmap string Q)
  : gmap Qc (gmap string Q) :=
  <[kv.1 := kv.2]> ret.

Lemma noise_loop_ok (noises : list Q) :
  reports_metrics ->
  forall ret total_correct w,
  exists w' events,
    noise_loop ext self noises ret total_correct w
    = (Ok (foldl set_entry ret (noise_run ext self noises (state w))), w') /\
    trace w' = (trace w ++ events)%list /\
    evaluated events = noise_loader self <$> noises.
Proof.
  intros Hm. induction noises as [|noise rest IH]; intros ret tc w.
  - exists w, []. cbn. rewrite app_nil_r. auto.
  - cbn [noise_loop noise_run].
    unfold mbind at 1. unfold M_bind at 1. unfold emit at 1.
    unfold mbind at 1. unfold M_bind at 1. rewrite (test_ok _ _ Hm).
    cbn [state trace].
    destruct (test_metrics_total_correct (noise_loader self noise) (state w) Hm)
      as [correct Ec].
    destruct (test_metrics ext self (noise_loader self noise) (state w))
      as [r x'] eqn:Et.
    cbn [fst snd] in *.
    unfold mbind at 1. unfold M_bind at 1. unfold lift at 1, getitem.
    rewrite Ec.
    destruct (IH (<[Q2Qc noise := r]> ret) (tc + correct)%Q
                 {| state := x';
                    trace := (trace w ++ [Log Info "Noise: %s"])
                             ++ test_events (noise_loader self noise) |})
      as (w' & events & E & Htr & Hev).
    exists w', ([Log Info "Noise: %s"] ++ test_events (noise_loader self noise)
                ++ events).
    split; [exact E|]. split.
    + rewrite Htr. cbn [trace]. now rewrite <- !app_assoc.
    + unfold evaluated in *. rewrite !omap_app, Hev. reflexivity.
Qed.

Lemma noise_run_keys (noises : list Q) : forall x,
  (noise_run ext self noises x).*1 = Q2Qc <$> noises.
Proof.
  induction noises as [|noise rest IH]; intros x; [reflexivity|].
  cbn [noise_run]. destruct (test_metrics ext self _ x) as [r x'].
  cbn. now rewrite IH.
Qed.

Lemma foldl_set_entry (l : list (Qc * gmap string Q)) : forall ret,
  foldl set_entry ret l = list_to_map (reverse l) ∪ ret.
Proof.
  induction l as [|[k v] l IH]; intros ret.
  - cbn. now rewrite (left_id_L ∅ (∪)).
  - cbn [foldl]. rewrite IH, reverse_cons, list_to_map_app.
    unfold set_entry. cbn [fst snd list_to_map foldr].
    rewrite insert_empty, <- (assoc_L (∪)).
    now rewrite <- insert_union_singleton_l.
Qed.

End NoiseTests.

Lemma noise_levels_distinct : NoDup (Q2Qc <$> noise_levels).
Proof. apply (bool_decide_unpack _). vm_compute. exact I. Qed.

(** C8. When the evaluation routine reports the metrics that are read,
    [runNoiseTests] returns a dict with exactly 11 entries, keyed by the noise
    levels 0.0, 0.05, ..., 0.5; the levels are ascending and are evaluated in
    that order, each with its own noise-injecting loader, and the entry of a
    level holds the metrics of its test. *)
Theorem runNoiseTests_entries {X : Type} (ext : External X) (self : Experiment)
    (w : World X) :
  reports_metrics ext self ->
  StronglySorted Qlt noise_levels /\
  exists ret w' events,
    runNoiseTests ext self w = (Ok ret, w') /\
    size ret = 11%nat /\
    dom ret = list_to_set (Q2Qc <$> noise_levels) /\
    (forall noise r,
       (Q2Qc noise, r) ∈ noise_run ext self noise_levels (state w) ->
       ret !! Q2Qc noise = Some r) /\
    trace w' = trace w ++ events /\
    evaluated events = noise_loader self <$> noise_levels.
Proof.
  intros Hm. split; [repeat constructor|].
  destruct (noise_loop_ok ext self noise_levels Hm ∅ 0%Q w)
    as (w' & events & E & Htr & Hev).
  exists (foldl set_entry ∅ (noise_run ext self noise_levels (state w))), w', events.
  split; [exact E|].
  rewrite foldl_set_entry, (right_id_L ∅ (∪)).
  assert (Hkeys : (reverse (noise_run ext self noise_levels (state w))).*1
                  = reverse (Q2Qc <$> noise_levels)).
  { now rewrite fmap_reverse, noise_run_keys. }
  assert (Hnd : NoDup (reverse (noise_run ext self noise_levels (state w))).*1).
  { rewrite Hkeys, reverse_Permutation. apply noise_levels_distinct. }
  split; [|split; [|split; [|split]]].
  - rewrite (map_size_list_to_map _ Hnd), length_reverse.
    rewrite <- (length_fmap fst), noise_run_keys. reflexivity.
  - rewrite dom_list_to_map_L, Hkeys. apply set_eq. intros k.
    rewrite !elem_of_list_to_set. apply elem_of_reverse.
  - intros noise r Hin. apply (elem_of_list_to_map_1 _ _ _ Hnd).
    now apply elem_of_reverse.
  - exact Htr.
  - exact Hev.
Qed.

Lemma runNoiseTests_entries_witness :
  reports_metrics stub_external
    {| config := example_config;
       loaders := _configureDataloaders "data" 64 1000 4 (50000 / 60000)%Q;
       model := []; cuda := false; data_parallel := false;
       self_optimizer := SGD (4 # 100) 0; self_lr_scheduler := None |} /\
  exists ret w',
    runNoiseTests stub_external
      {| config := example_config;
         loaders := _configureDataloaders "data" 64 1000 4 (50000 / 60000)%Q;
         model := []; cuda := false; data_parallel := false;
         self_optimizer := SGD (4 # 100) 0; self_lr_scheduler := None |}
      empty_world = (Ok ret, w') /\
    size ret = 11%nat /\
    (ret !! Q2Qc (5 # 100)) ≫= (fun r => r !! "total_correct") = Some 1%Q.
Proof.
  assert (Hm : reports_metrics stub_external
    {| config := example_config;
       loaders := _configureDataloaders "data" 64 1000 4 (50000 / 60000)%Q;
       model := []; cuda := false; data_parallel := false;
       self_optimizer := SGD (4 # 100) 0; self_lr_scheduler := None |}).
  { intros loader x. cbn. repeat split; eexists; reflexivity. }
  split; [exact Hm|].
  destruct (runNoiseTests_entries stub_external _ empty_world Hm)
    as (_ & ret & w' & events & E & Hsize & _ & Hget & _).
  exists ret, w'. split; [exact E|]. split; [exact Hsize|].
  rewrite (Hget (5 # 100)%Q
             (<["entropy" := 0%Q]>
                {[ "mean_accuracy" := 1%Q; "mean_loss" := 0%Q;
                   "total_correct" := 1%Q ]})).
  - reflexivity.
  - vm_compute. apply list_elem_of_further, list_elem_of_here.
Defined.

End MnistFacts.

(** * Properties of the profiling mixin *)

Module ProfileFacts.
Import Profile.

Local Open Scope Z_scope.

(** [train_epoch] calls the next class's [train_epoch] once, inside the
    profiler's region, and the flag it gives the profiler is the truth value
    of the attribute [profile]. *)
Lemma train_epoch_region {Cfg : Type}
    (super_train_epoch : Z -> Obj -> result Obj) (cuda : bool) (epoch : Z)
    (self : Obj) (v : value) :
  self !! "profile" = Some v ->
  exists r rest,
    train_epoch super_train_epoch cuda epoch self
    = (r, [ProfilerEnter cuda (truthy v); TrainEpoch epoch; ProfilerExit] ++ rest) /\
    (rest = [] \/ rest = [LogInfoTable "self_cpu_time_total"]) /\
    (forall e, super_train_epoch epoch self = Raise e -> r = Raise e /\ rest = []).
Proof.
  intros Hp. unfold train_epoch, getattr. rewrite Hp.
  destruct (super_train_epoch epoch self) as [self'|e].
  - destruct (self' !! "profile") as [p|].
    + destruct (truthy p && bool_decide _); eexists _, _;
        (split; [reflexivity|]); split; auto; discriminate.
    + eexists _, []. split; [reflexivity|]. split; auto; discriminate.
  - eexists _, []. split; [reflexivity|]. split; [auto|].
    intros e' [= <-]. auto.
Qed.

(** C9, evaluated.  With the example base class, a process of rank 0 whose
    [profile] option is off computes [profile_autograd = True] and then runs
    the epoch with the profiler disabled and logs no table; a process of rank
    3 whose [profile] option is on computes [profile_autograd = False] and
    runs the epoch with the profiler enabled and logs the table. *)
Theorem profiler_flag_is_not_the_rank_flag (cuda : bool) :
  (exists self,
     setup_experiment example_setup_experiment
       {| cfg_rank := 0; cfg_profile := false |} ∅ = Ok self /\
     self !! "profile_autograd" = Some (VBool true) /\
     train_epoch example_train_epoch cuda 1 self
     = (Ok self, [ProfilerEnter cuda false; TrainEpoch 1; ProfilerExit])) /\
  (exists self,
     setup_experiment example_setup_experiment
       {| cfg_rank := 3; cfg_profile := true |} ∅ = Ok self /\
     self !! "profile_autograd" = Some (VBool false) /\
     train_epoch example_train_epoch cuda 1 self
     = (Ok self, [ProfilerEnter cuda true; TrainEpoch 1; ProfilerExit;
                  LogInfoTable "self_cpu_time_total"])).
Proof.
  split; eexists; (split; [reflexivity|]); split; reflexivity.
Qed.

End ProfileFacts.

(** * Properties of the loss functions *)

Module LossFacts.
Import Loss.

Local Open Scope R_scope.

(** ** Loops as maps *)

Lemma for_each_accumulate {A} (f : A -> result xreal) (l : list A) : forall s,
  for_each (fun s x => v ← f x; Ok (xadd s v)) s l
  = vs ← mapM f l; Ok (foldl xadd s vs).
Proof.
  induction l as [|x l IH]; intros s; [reflexivity|].
  cbn [for_each mapM]. destruct (f x) as [v|e]; [|reflexivity].
  cbn [mbind result_bind]. rewrite IH.
  destruct (mapM f l) as [vs|e]; reflexivity.
Qed.

Lemma for_each_nested {A} (f : A -> result xreal) (ll : list (list A)) : forall s,
  for_each (fun s l => for_each (fun s x => v ← f x; Ok (xadd s v)) s l) s ll
  = vss ← horizon_losses f ll; Ok (foldl xadd s (concat vss)).
Proof.
  unfold horizon_losses.
  induction ll as [|l ll IH]; intros s; [reflexivity|].
  cbn [for_each mapM]. rewrite for_each_accumulate.
  destruct (mapM f l) as [vs|e]; [|reflexivity].
  cbn [mbind result_bind]. rewrite IH.
  destruct (mapM (mapM f) ll) as [vss|e]; [|reflexivity].
  cbn [mbind result_bind mret result_ret concat]. now rewrite foldl_app.
Qed.

Lemma for_each_collect {A B} (g : A -> result B) (l : list A) : forall acc,
  for_each (fun acc x => v ← g x; Ok (acc ++ [v])) acc l
  = vs ← mapM g l; Ok (acc ++ vs).
Proof.
  induction l as [|x l IH]; intros acc.
  - cbn. now rewrite app_nil_r.
  - cbn [for_each mapM]. destruct (g x) as [v|e]; [|reflexivity].
    cbn [mbind result_bind]. rewrite IH.
    destruct (mapM g l) as [vs|e]; [|reflexivity].
    cbn [mbind result_bind mret result_ret]. now rewrite <- app_assoc.
Qed.

Lemma for_each_ext {A S} (f g : S -> A -> result S) (l : list A) :
  (forall s x, f s x = g s x) -> forall s, for_each f s l = for_each g s l.
Proof.
  intros H. induction l as [|x l IH]; intros s; [reflexivity|].
  cbn [for_each]. rewrite H. destruct (g s x); [apply IH | reflexivity].
Qed.

Lemma for_each_zip_with {A B C S} (h : A -> B -> C) (F : S -> C -> result S)
    (l1 : list A) : forall (l2 : list B) s,
  for_each (fun s p => F s (h p.1 p.2)) s (zip l1 l2)
  = for_each F s (zip_with h l1 l2).
Proof.
  induction l1 as [|a l1 IH]; intros [|b l2] s; try reflexivity.
  cbn [zip_with for_each fst snd]. destruct (F s (h a b)); [apply IH | reflexivity].
Qed.

Lemma zip_seq_longer {A} (l : list A) : forall k m,
  zip (seq k (length l + m)) l = zip (seq k (length l)) l.
Proof.
  induction l as [|x l IH]; intros k m.
  - cbn. now destruct (seq k m).
  - cbn. now rewrite IH.
Qed.

(** ** The loss functions in closed form *)

Section ClosedForms.
Context {T : Type} (targets : T) (r : reduction).

Lemma multiple_cross_entropy_closed (log_f_module_list : list (list Tensor)) :
  multiple_cross_entropy log_f_module_list targets r
  = (_ ← device log_f_module_list;
     losses ← horizon_losses (fun log_fk => cross_entropy log_fk (torch_zeros log_fk) r)
                log_f_module_list;
     Ok (xsum (concat losses))).
Proof.
  unfold multiple_cross_entropy. destruct (device log_f_module_list); [|reflexivity].
  cbn [mbind result_bind].
  exact (for_each_nested
           (fun log_fk => cross_entropy log_fk (torch_zeros log_fk) r) _ _).
Qed.

Lemma all_module_multiple_log_softmax_closed
    (log_f_module_list : list (list Tensor)) :
  all_module_multiple_log_softmax log_f_module_list targets r
  = (_ ← device log_f_module_list;
     mapM (fun log_f_list =>
             losses ← mapM (fun log_fk => softmax_nll r log_fk (torch_zeros log_fk))
                        log_f_list;
             Ok (horizon_average (length log_f_list) losses))
       log_f_module_list).
Proof.
  unfold all_module_multiple_log_softmax.
  destruct (device log_f_module_list); [|reflexivity]. cbn [mbind result_bind].
  rewrite (for_each_ext _
    (fun acc log_f_list =>
       v ← (losses ← mapM (fun log_fk => softmax_nll r log_fk (torch_zeros log_fk))
                        log_f_list;
            Ok (horizon_average (length log_f_list) losses));
       Ok (acc ++ [v]))).
  - rewrite for_each_collect. now destruct (mapM _ log_f_module_list).
  - intros acc log_f_list.
    rewrite (for_each_accumulate
               (fun log_fk => softmax_nll r log_fk (torch_zeros log_fk))).
    now destruct (mapM _ log_f_list).
Qed.

Lemma true_gim_loss_closed (data_lists : list (list Tensor) * list (list LongTensor)) :
  true_gim_loss data_lists targets r
  = (_ ← device data_lists.1;
     terms ← horizon_losses (fun p => true_gim_term p.1) (zip_modules data_lists);
     Ok (xsum (concat terms))).
Proof.
  destruct data_lists as [mods trues]. unfold true_gim_loss, zip_modules.
  cbn [fst snd]. destruct (device mods); [|reflexivity]. cbn [mbind result_bind].
  unfold xsum.
  rewrite <- (for_each_nested (fun p : Tensor * LongTensor => true_gim_term p.1)).
  rewrite <- (for_each_zip_with zip).
  apply for_each_ext. intros s [ml tl]. cbn [fst snd].
  apply for_each_ext. now intros s' [t g].
Qed.

Lemma module_specific_cross_entropy_closed
    (data_lists : list (list Tensor) * list (list LongTensor)) (module : Z) :
  module_specific_cross_entropy data_lists targets r module
  = (_ ← device data_lists.1;
     log_f_list ← index_Z "log_f_module_list" data_lists.1 module;
     true_f_list ← index_Z "true_f_module_list" data_lists.2 module;
     losses ← mapM (fun p => cross_entropy p.1 p.2 r) (zip log_f_list true_f_list);
     Ok (xsum losses)).
Proof.
  destruct data_lists as [mods trues]. unfold module_specific_cross_entropy.
  cbn [fst snd]. destruct (device mods); [|reflexivity]. cbn [mbind result_bind].
  destruct (index_Z _ mods module) as [ml|]; [|reflexivity].
  destruct (index_Z _ trues module) as [tl|]; [|reflexivity].
  cbn [mbind result_bind]. unfold xsum.
  rewrite <- (for_each_accumulate (fun p : Tensor * LongTensor => cross_entropy p.1 p.2 r)).
  apply for_each_ext. now intros s [t g].
Qed.

Lemma insert_middle {A} (l1 l2 : list A) (x y : A) :
  <[length l1 := x]> (l1 ++ y :: l2) = l1 ++ x :: l2.
Proof.
  induction l1 as [|a l1 IH]; [reflexivity|].
  change (a :: <[length l1 := x]> (l1 ++ y :: l2) = a :: (l1 ++ x :: l2)).
  now rewrite IH.
Qed.

Lemma index_Some {A} what (l : list A) i a :
  l !! i = Some a -> index what l i = Ok a.
Proof. unfold index. now intros ->. Qed.

(** The loop over the horizons of module [i] adds their losses to entry [i]. *)
Lemma horizon_loop_entry (i : nat) (pairs : list (Tensor * LongTensor)) :
  forall (total_loss : list xreal) (current : xreal),
  total_loss !! i = Some current ->
  for_each (fun total_loss '(log_fk, true_fk) =>
      let softmax_fk := torch_softmax log_fk in
      let log_softmax_fk := torch_log_plus epsilon softmax_fk in
      current ← index "total_loss" total_loss i;
      loss ← nll_loss log_softmax_fk true_fk r;
      Ok (<[i := xadd current loss]> total_loss))
    total_loss pairs
  = (losses ← mapM (fun p => softmax_nll r p.1 p.2) pairs;
     Ok (<[i := foldl xadd current losses]> total_loss)).
Proof.
  induction pairs as [|[t g] pairs IH]; intros total_loss current Hi.
  - cbn. now rewrite list_insert_id.
  - cbn [for_each mapM fst snd]. rewrite (index_Some _ _ _ _ Hi).
    cbn [mbind result_bind].
    change (softmax_nll r t g)
      with (nll_loss (torch_log_plus epsilon (torch_softmax t)) g r).
    destruct (nll_loss _ g r) as [loss|e]; [|reflexivity].
    cbn [mbind result_bind].
    rewrite (IH _ (xadd current loss)).
    + destruct (mapM _ pairs) as [losses|e]; [|reflexivity].
      cbn [mbind result_bind mret result_ret foldl].
      now rewrite list_insert_insert_eq.
    + apply list_lookup_insert_eq. now apply lookup_lt_Some in Hi.
Qed.

Lemma module_loop_entries (l : list (list Tensor * list LongTensor)) :
  forall (done : list xreal) (m : nat),
  for_each (fun total_loss '(i, (log_f_list, true_f_list)) =>
      total_loss ←
        for_each (fun total_loss '(log_fk, true_fk) =>
            let softmax_fk := torch_softmax log_fk in
            let log_softmax_fk := torch_log_plus epsilon softmax_fk in
            current ← index "total_loss" total_loss i;
            loss ← nll_loss log_softmax_fk true_fk r;
            Ok (<[i := xadd current loss]> total_loss))
          total_loss (zip log_f_list true_f_list);
      current ← index "total_loss" total_loss i;
      Ok (<[i := xdiv_nat current (length log_f_list)]> total_loss))
    (done ++ replicate (length l + m) (Finite 0))
    (zip (seq (length done) (length l)) l)
  = (losses ← mapM (fun p =>
                 losses ← mapM (fun q => softmax_nll r q.1 q.2) (zip p.1 p.2);
                 Ok (horizon_average (length p.1) losses)) l;
     Ok (done ++ losses ++ replicate m (Finite 0))).
Proof.
  induction l as [|[ml tl] l IH]; intros done m; [reflexivity|].
  cbn [length seq zip zip_with for_each mapM fst snd Nat.add replicate].
  rewrite (horizon_loop_entry (length done) _ _ (Finite 0))
    by apply list_lookup_middle, eq_refl.
  destruct (mapM _ (zip ml tl)) as [losses|e]; [|reflexivity].
  cbn [mbind result_bind].
  rewrite insert_middle.
  rewrite (index_Some _ _ _ (xsum losses)) by (apply list_lookup_middle; lia).
  cbn [mbind result_bind]. rewrite insert_middle.
  fold (horizon_average (length ml) losses).
  specialize (IH (done ++ [horizon_average (length ml) losses]) m).
  rewrite length_app in IH. cbn [length] in IH.
  replace (length done + 1)%nat with (S (length done)) in IH by lia.
  rewrite <- app_assoc in IH. cbn [app] in IH.
  rewrite IH. destruct (mapM _ l) as [vs|e]; [|reflexivity].
  cbn [mbind result_bind mret result_ret]. now rewrite <- app_assoc.
Qed.

Lemma module_specific_log_softmax_nll_loss_closed
    (data_lists : list (list Tensor) * list (list LongTensor)) :
  module_specific_log_softmax_nll_loss data_lists targets r
  = (_ ← device data_lists.1;
     losses ← mapM (fun p =>
                 losses ← mapM (fun q => softmax_nll r q.1 q.2) (zip p.1 p.2);
                 Ok (horizon_average (length p.1) losses))
               (zip data_lists.1 data_lists.2);
     Ok (losses ++ replicate (length data_lists.1 - length data_lists.2) (Finite 0))).
Proof.
  destruct data_lists as [mods trues]. unfold module_specific_log_softmax_nll_loss.
  cbn [fst snd]. destruct (device mods); [|reflexivity]. cbn [mbind result_bind].
  assert (Hlen : length mods
                 = (length (zip mods trues) + (length mods - length trues))%nat).
  { rewrite length_zip_with. lia. }
  rewrite Hlen at 1 2. rewrite zip_seq_longer.
  exact (module_loop_entries (zip mods trues) [] _).
Qed.

End ClosedForms.

(** ** Sums *)

Lemma epsilon_bounds : 0 < epsilon < / 2.
Proof. unfold epsilon. lra. Qed.

Lemma rsum_ext (f g : nat -> R) n :
  (forall i, (i < n)%nat -> f i = g i) -> rsum n f = rsum n g.
Proof.
  induction n as [|n IH]; intros H; [reflexivity|].
  cbn [rsum]. rewrite IH by (intros; apply H; lia). now rewrite H by lia.
Qed.

Lemma rsum_const n a : rsum n (fun _ => a) = INR n * a.
Proof.
  induction n as [|n IH]; [cbn; lra|].
  cbn [rsum]. rewrite IH, S_INR. lra.
Qed.

Lemma rsum_pos n (f : nat -> R) :
  (0 < n)%nat -> (forall i, 0 < f i) -> 0 < rsum n f.
Proof.
  intros Hn Hf. induction n as [|n IH]; [lia|].
  cbn [rsum]. destruct n as [|n].
  - cbn. specialize (Hf O). lra.
  - specialize (IH ltac:(lia)). specialize (Hf (S n)). lra.
Qed.

Lemma pos_sum_const b y x a :
  pos_sum b y x (fun _ _ _ => a) = INR (b * y * x) * a.
Proof.
  unfold pos_sum. rewrite !rsum_const, !mult_INR. lra.
Qed.

Lemma pos_sum_ext b y x (f g : nat -> nat -> nat -> R) :
  (forall i j k, f i j k = g i j k) -> pos_sum b y x f = pos_sum b y x g.
Proof.
  intros H. unfold pos_sum.
  apply rsum_ext. intros i _. apply rsum_ext. intros j _.
  apply rsum_ext. intros k _. apply H.
Qed.

Lemma xsum_n_ext (f g : nat -> xreal) n :
  (forall i, f i = g i) -> xsum_n n f = xsum_n n g.
Proof.
  intros H. induction n as [|n IH]; [reflexivity|].
  cbn [xsum_n]. now rewrite IH, H.
Qed.

Lemma xsum_n_finite (f : nat -> R) n :
  xsum_n n (fun i => Finite (f i)) = Finite (rsum n f).
Proof.
  induction n as [|n IH]; [reflexivity|]. cbn [xsum_n rsum]. now rewrite IH.
Qed.

Lemma xpos_sum_finite b y x (f : nat -> nat -> nat -> R) :
  xpos_sum b y x (fun i j k => Finite (f i j k)) = Finite (pos_sum b y x f).
Proof.
  unfold xpos_sum, pos_sum.
  rewrite (xsum_n_ext _ (fun i => Finite (rsum y (fun j => rsum x (fun k => f i j k))))).
  - apply xsum_n_finite.
  - intros i.
    rewrite (xsum_n_ext _ (fun j => Finite (rsum x (fun k => f i j k)))).
    + apply xsum_n_finite.
    + intros j. apply xsum_n_finite.
Qed.

Lemma xsum_n_NInf n : (0 < n)%nat -> xsum_n n (fun _ => NInf) = NInf.
Proof.
  intros Hn. destruct n as [|n]; [lia|]. clear Hn.
  induction n as [|n IH]; [reflexivity|].
  change (xsum_n (S (S n)) (fun _ => NInf))
    with (xadd (xsum_n (S n) (fun _ => NInf)) NInf).
  now rewrite IH.
Qed.

Lemma xsum_n_PInf n : (0 < n)%nat -> xsum_n n (fun _ => PInf) = PInf.
Proof.
  intros Hn. destruct n as [|n]; [lia|]. clear Hn.
  induction n as [|n IH]; [reflexivity|].
  change (xsum_n (S (S n)) (fun _ => PInf))
    with (xadd (xsum_n (S n) (fun _ => PInf)) PInf).
  now rewrite IH.
Qed.

(** ** What the loops compute *)

Lemma mapM_length {A B} (f : A -> result B) (l : list A) : forall vs,
  mapM f l = Ok vs -> length vs = length l.
Proof.
  induction l as [|x l IH]; intros vs.
  - now intros [= <-].
  - cbn [mapM]. destruct (f x) as [v|e]; [|discriminate].
    cbn [mbind result_bind]. destruct (mapM f l) as [ws|e]; [|discriminate].
    intros [= <-]. cbn. now rewrite (IH ws).
Qed.

Lemma mapM_zip_fmap {A B C} (h : A -> B) (f : A * B -> result C) (l : list A) :
  mapM f (zip l (h <$> l)) = mapM (fun x => f (x, h x)) l.
Proof.
  induction l as [|x l IH]; [reflexivity|].
  cbn [fmap list_fmap zip zip_with mapM]. now rewrite IH.
Qed.

Lemma mapM_ext_result {A B} (f g : A -> result B) (l : list A) :
  (forall x, f x = g x) -> mapM f l = mapM g l.
Proof.
  intros H. induction l as [|x l IH]; [reflexivity|].
  cbn [mapM]. now rewrite H, IH.
Qed.

(** X1. [all_module_multiple_log_softmax] returns one entry per module: the
    module's horizon losses (negative log-likelihood of class 0 under
    [log(softmax + 1e-11)]), summed and divided by the number of horizons. *)
Theorem all_module_multiple_log_softmax_averages {T : Type} (targets : T)
    (r : reduction) (log_f_module_list : list (list Tensor)) :
  all_module_multiple_log_softmax log_f_module_list targets r
  = (_ ← device log_f_module_list;
     mapM (fun log_f_list =>
             losses ← mapM (fun log_fk => softmax_nll r log_fk (torch_zeros log_fk))
                        log_f_list;
             Ok (horizon_average (length log_f_list) losses))
       log_f_module_list) /\
  (forall module_losses,
     all_module_multiple_log_softmax log_f_module_list targets r = Ok module_losses ->
     length module_losses = length log_f_module_list).
Proof.
  split; [apply all_module_multiple_log_softmax_closed|].
  intros v. rewrite all_module_multiple_log_softmax_closed.
  destruct (device log_f_module_list); [|discriminate].
  cbn [mbind result_bind]. apply mapM_length.
Qed.

(** X2. [module_specific_log_softmax_nll_loss] returns a vector as long as
    the module list.  A module paired with a target list gets the losses of
    its (prediction, target) pairs, summed and divided by the number of its
    predictions, also when it has fewer targets than predictions; a module
    past the end of the target lists keeps 0. *)
Theorem module_specific_log_softmax_nll_loss_entries {T : Type} (targets : T)
    (r : reduction) (data_lists : list (list Tensor) * list (list LongTensor)) :
  module_specific_log_softmax_nll_loss data_lists targets r
  = (_ ← device data_lists.1;
     losses ← mapM (fun p =>
                 losses ← mapM (fun q => softmax_nll r q.1 q.2) (zip p.1 p.2);
                 Ok (horizon_average (length p.1) losses))
               (zip data_lists.1 data_lists.2);
     Ok (losses ++ replicate (length data_lists.1 - length data_lists.2) (Finite 0))) /\
  (forall total_loss,
     module_specific_log_softmax_nll_loss data_lists targets r = Ok total_loss ->
     length total_loss = length data_lists.1).
Proof.
  split; [apply module_specific_log_softmax_nll_loss_closed|].
  intros v. rewrite module_specific_log_softmax_nll_loss_closed.
  destruct (device data_lists.1); [|discriminate]. cbn [mbind result_bind].
  destruct (mapM _ (zip data_lists.1 data_lists.2)) as [vs|e] eqn:E; [|discriminate].
  cbn [mbind result_bind]. intros [= <-].
  apply mapM_length in E. rewrite length_app, length_replicate, E.
  rewrite length_zip_with. lia.
Qed.

(** X3. [multiple_cross_entropy] is the sum, over every horizon of every
    module, of the cross entropy against class 0; nothing is divided by the
    number of horizons, so a module list of one module gives the plain sum of
    its horizon losses. *)
Theorem multiple_cross_entropy_sums {T : Type} (targets : T) (r : reduction) :
  (forall log_f_module_list,
     multiple_cross_entropy log_f_module_list targets r
     = (_ ← device log_f_module_list;
        losses ← horizon_losses
                   (fun log_fk => cross_entropy log_fk (torch_zeros log_fk) r)
                   log_f_module_list;
        Ok (xsum (concat losses)))) /\
  (forall log_fk log_f_list,
     multiple_cross_entropy [log_fk :: log_f_list] targets r
     = (losses ← mapM (fun log_fk => cross_entropy log_fk (torch_zeros log_fk) r)
                  (log_fk :: log_f_list);
        Ok (xsum losses))).
Proof.
  split; [apply multiple_cross_entropy_closed|].
  intros t l. rewrite multiple_cross_entropy_closed. unfold horizon_losses.
  cbn [device index lookup list_lookup mbind result_bind].
  change (mapM (mapM ?f) [?x]) with (y ← mapM f x; k ← Ok []; mret (y :: k)).
  destruct (mapM _ (t :: l)) as [vs|e]; [|reflexivity].
  cbn [mbind result_bind mret result_ret concat]. now rewrite app_nil_r.
Qed.

(** X4. [true_gim_loss] is the sum over the (prediction, target) pairs of
    every module of the "true" term of the prediction; the target tensors are
    not read, only how many there are. *)
Theorem true_gim_loss_sums {T : Type} (targets : T) (r : reduction)
    (log_f_module_list : list (list Tensor))
    (true_f_module_list true_f_module_list' : list (list LongTensor)) :
  Forall2 (fun a b => length a = length b) true_f_module_list true_f_module_list' ->
  true_gim_loss (log_f_module_list, true_f_module_list) targets r
  = (_ ← device log_f_module_list;
     terms ← horizon_losses (fun p => true_gim_term p.1)
               (zip_modules (log_f_module_list, true_f_module_list));
     Ok (xsum (concat terms))) /\
  true_gim_loss (log_f_module_list, true_f_module_list) targets r
  = true_gim_loss (log_f_module_list, true_f_module_list') targets r.
Proof.
  intros Hlen. split; [apply true_gim_loss_closed|].
  rewrite !true_gim_loss_closed. cbn [fst snd].
  destruct (device log_f_module_list); [|reflexivity]. cbn [mbind result_bind].
  f_equal. unfold horizon_losses, zip_modules. cbn [fst snd].
  revert log_f_module_list. induction Hlen as [|ta tb l l' Hab _ IH]; intros mods.
  - now destruct mods.
  - destruct mods as [|ml mods]; [reflexivity|].
    cbn [zip_with mapM]. rewrite IH. f_equal.
    clear -Hab. revert ta tb Hab. induction ml as [|t ml IHm]; intros u v Huv.
    + reflexivity.
    + destruct u as [|g u], v as [|g' v]; try discriminate; [reflexivity|].
      cbn [zip zip_with mapM fst]. injection Huv as Huv.
      now rewrite (IHm u v Huv).
Qed.

(** ** The reduction argument *)

Lemma xscale_xadd n a b : xscale n (xadd a b) = xadd (xscale n a) (xscale n b).
Proof. destruct a, b; cbn; try reflexivity. f_equal. lra. Qed.

Lemma xscale_zero n : xscale n (Finite 0) = Finite 0.
Proof. cbn. f_equal. lra. Qed.

Lemma xscale_foldl n (l : list xreal) : forall s,
  foldl xadd (xscale n s) (xscale n <$> l) = xscale n (foldl xadd s l).
Proof.
  induction l as [|a l IH]; intros s; [reflexivity|].
  cbn [fmap list_fmap foldl]. now rewrite <- xscale_xadd, IH.
Qed.

Lemma xscale_xsum n (l : list xreal) : xsum (xscale n <$> l) = xscale n (xsum l).
Proof. unfold xsum. now rewrite <- xscale_foldl, xscale_zero. Qed.

Lemma xscale_xdiv_nat n a k :
  (0 < n)%nat -> xdiv_nat (xscale n a) k = xscale n (xdiv_nat a k).
Proof.
  intros Hn. assert (Hpos : 0 < INR n) by now apply lt_0_INR.
  destruct a as [v| | |]; try reflexivity.
  cbn [xscale xdiv_nat]. destruct k as [|k].
  - destruct (Rlt_dec 0 v), (Rlt_dec 0 (INR n * v)); try reflexivity; try nra.
    destruct (Rlt_dec v 0), (Rlt_dec (INR n * v) 0); try reflexivity; nra.
  - cbn [xscale]. f_equal. field. apply not_0_INR. lia.
Qed.

Lemma xscale_horizon_average n k (l : list xreal) :
  (0 < n)%nat ->
  horizon_average k (xscale n <$> l) = xscale n (horizon_average k l).
Proof.
  intros Hn. unfold horizon_average. now rewrite xscale_xsum, xscale_xdiv_nat.
Qed.

Lemma nll_loss_sum_scale (input : Tensor) (target : LongTensor) n :
  (0 < n)%nat -> positions input = n ->
  nll_loss input target Sum = (v ← nll_loss input target Mean; Ok (xscale n v)).
Proof.
  intros Hn Hp. unfold nll_loss.
  destruct (negb _); [reflexivity|]. destruct (negb _); [reflexivity|].
  destruct (negb _); [reflexivity|]. cbn [mbind result_bind]. rewrite Hp.
  destruct n as [|n]; [lia|]. cbn [xdiv_nat xscale]. do 2 f_equal.
  field. apply not_0_INR. lia.
Qed.

Lemma softmax_nll_sum_scale n (pairs : list (Tensor * LongTensor)) :
  (0 < n)%nat -> Forall (fun t => positions t = n) pairs.*1 ->
  mapM (fun q => softmax_nll Sum q.1 q.2) pairs
  = (vs ← mapM (fun q => softmax_nll Mean q.1 q.2) pairs; Ok (xscale n <$> vs)).
Proof.
  intros Hn. induction pairs as [|[t g] pairs IH]; intros H; [reflexivity|].
  cbn [fmap list_fmap fst] in H. apply Forall_cons in H as [Ht H].
  cbn [mapM fst snd].
  change (softmax_nll Sum t g)
    with (nll_loss (torch_log_plus epsilon (torch_softmax t)) g Sum).
  change (softmax_nll Mean t g)
    with (nll_loss (torch_log_plus epsilon (torch_softmax t)) g Mean).
  rewrite (nll_loss_sum_scale _ g n Hn) by exact Ht.
  destruct (nll_loss _ g Mean) as [v|e]; [|reflexivity]. cbn [mbind result_bind].
  rewrite (IH H). clear IH.
  destruct (mapM (fun q : Tensor * LongTensor => softmax_nll Mean q.1 q.2) pairs);
    reflexivity.
Qed.

Lemma Forall_zip_fst {A B} (P : A -> Prop) (l : list A) : forall k : list B,
  Forall P l -> Forall P (zip l k).*1.
Proof.
  induction l as [|x l IH]; intros [|y k] H; try constructor.
  - now apply Forall_cons in H as [? _].
  - apply IH. now apply Forall_cons in H as [_ ?].
Qed.

Lemma module_specific_sum_scale {T : Type} (targets : T)
    (data_lists : list (list Tensor) * list (list LongTensor)) (n : nat) :
  (0 < n)%nat ->
  Forall (Forall (fun t => positions t = n)) data_lists.1 ->
  module_specific_log_softmax_nll_loss data_lists targets Sum
  = (total_loss ← module_specific_log_softmax_nll_loss data_lists targets Mean;
     Ok (xscale n <$> (total_loss : list xreal))).
Proof.
  intros Hn Hall. rewrite !module_specific_log_softmax_nll_loss_closed.
  destruct data_lists as [mods trues]. cbn [fst snd] in *.
  destruct (device mods); [|reflexivity]. cbn [mbind result_bind].
  assert (Hm : mapM (fun p : list Tensor * list LongTensor =>
                 losses ← mapM (fun q => softmax_nll Sum q.1 q.2) (zip p.1 p.2);
                 Ok (horizon_average (length p.1) losses)) (zip mods trues)
             = (vs ← mapM (fun p : list Tensor * list LongTensor =>
                   losses ← mapM (fun q => softmax_nll Mean q.1 q.2) (zip p.1 p.2);
                   Ok (horizon_average (length p.1) losses)) (zip mods trues);
                Ok (xscale n <$> vs))).
  { revert trues. induction mods as [|ml mods IH]; intros [|tl trues];
      try reflexivity.
    apply Forall_cons in Hall as [Hml Hall].
    cbn [zip zip_with mapM fst snd].
    rewrite (softmax_nll_sum_scale n (zip ml tl) Hn) by now apply Forall_zip_fst.
    destruct (mapM _ (zip ml tl)) as [ls|e]; [|reflexivity].
    cbn [mbind result_bind]. rewrite (IH Hall trues).
    destruct (mapM _ (zip mods trues)) as [vs|e]; [|reflexivity].
    cbn [mbind result_bind mret result_ret fmap list_fmap].
    now rewrite xscale_horizon_average. }
  rewrite Hm. clear Hm.
  match goal with
  | |- context [mapM ?f (zip mods trues)] =>
      destruct (mapM f (zip mods trues)) as [vs|e]; [|reflexivity]
  end.
  cbn [mbind result_bind]. rewrite fmap_app, fmap_replicate, xscale_zero.
  reflexivity.
Qed.

(** X5. [module_specific_log_softmax_nll_loss] passes its [reduction] on to
    the loss of every horizon: when every prediction tensor has the same
    number [n > 0] of positions (batch x y x), the vector for ['sum'] is [n]
    times the vector for ['mean'], and an error is the same for both. *)
Theorem module_specific_reduction_scales {T : Type} (targets : T)
    (data_lists : list (list Tensor) * list (list LongTensor)) (n : nat) :
  (0 < n)%nat ->
  Forall (Forall (fun t => positions t = n)) data_lists.1 ->
  module_specific_log_softmax_nll_loss data_lists targets Sum
  = (total_loss ← module_specific_log_softmax_nll_loss data_lists targets Mean;
     Ok (xscale n <$> (total_loss : list xreal))).
Proof. apply module_specific_sum_scale. Qed.

Lemma example_data_positions :
  Forall (Forall (fun t => positions t = 2%nat)) example_data.1.
Proof. repeat constructor. Qed.

Lemma module_specific_reduction_scales_witness :
  (0 < 2)%nat /\
  Forall (Forall (fun t => positions t = 2%nat)) example_data.1 /\
  module_specific_log_softmax_nll_loss example_data tt Sum
  = (total_loss ← module_specific_log_softmax_nll_loss example_data tt Mean;
     Ok (xscale 2 <$> (total_loss : list xreal))).
Proof.
  split; [lia|]. split; [exact example_data_positions|].
  apply (module_specific_reduction_scales tt example_data 2);
    [lia | exact example_data_positions].
Defined.

(** X6. [multiple_log_softmax_nll_loss] does not pass its [reduction] on: it
    returns the same scalar for every reduction, the sum of the ['mean']
    vector.  With every prediction tensor of [n > 0] positions, the sum of
    the ['sum'] vector of [module_specific_log_softmax_nll_loss] is [n] times
    what [multiple_log_softmax_nll_loss] returns for ['sum']. *)
Theorem multiple_log_softmax_nll_loss_reduction {T : Type} (targets : T)
    (data_lists : list (list Tensor) * list (list LongTensor)) (n : nat) :
  (0 < n)%nat ->
  Forall (Forall (fun t => positions t = n)) data_lists.1 ->
  (forall r r',
     multiple_log_softmax_nll_loss data_lists targets r
     = multiple_log_softmax_nll_loss data_lists targets r') /\
  (total_loss ← module_specific_log_softmax_nll_loss data_lists targets Sum;
   Ok (xsum total_loss))
  = (loss ← multiple_log_softmax_nll_loss data_lists targets Sum;
     Ok (xscale n loss)).
Proof.
  intros Hn Hall. split; [reflexivity|].
  rewrite (module_specific_sum_scale targets data_lists n Hn Hall).
  unfold multiple_log_softmax_nll_loss.
  destruct (module_specific_log_softmax_nll_loss data_lists targets Mean)
    as [v|e]; [|reflexivity].
  cbn [mbind result_bind]. now rewrite xscale_xsum.
Qed.

Lemma multiple_log_softmax_nll_loss_reduction_witness :
  (0 < 2)%nat /\
  Forall (Forall (fun t => positions t = 2%nat)) example_data.1 /\
  (total_loss ← module_specific_log_softmax_nll_loss example_data tt Sum;
   Ok (xsum total_loss))
  = (loss ← multiple_log_softmax_nll_loss example_data tt Sum;
     Ok (xscale 2 loss)).
Proof.
  split; [lia|]. split; [exact example_data_positions|].
  apply (multiple_log_softmax_nll_loss_reduction tt example_data 2);
    [lia | exact example_data_positions].
Defined.

(** ** Empty inputs and indices *)

Lemma device_empty (log_f_module_list : list (list Tensor)) :
  log_f_module_list = [] \/ head log_f_module_list = Some [] ->
  exists what, device log_f_module_list = Raise (IndexError what).
Proof.
  intros [-> | H]; [eexists; reflexivity|].
  destruct log_f_module_list as [|l rest]; [discriminate|].
  injection H as ->. eexists. reflexivity.
Qed.

(** X7. Every loss function first reads [log_f_module_list[0][0]]: with an
    empty module list, or a first module without horizons, each of them
    raises [IndexError]. *)
Theorem empty_input_raises {T : Type} (targets : T) (r : reduction)
    (log_f_module_list : list (list Tensor))
    (true_f_module_list : list (list LongTensor)) (module : Z) :
  log_f_module_list = [] \/ head log_f_module_list = Some [] ->
  (exists what,
     multiple_cross_entropy log_f_module_list targets r = Raise (IndexError what)) /\
  (exists what,
     all_module_multiple_log_softmax log_f_module_list targets r
     = Raise (IndexError what)) /\
  (exists what,
     module_specific_log_softmax_nll_loss (log_f_module_list, true_f_module_list)
       targets r = Raise (IndexError what)) /\
  (exists what,
     multiple_log_softmax_nll_loss (log_f_module_list, true_f_module_list)
       targets r = Raise (IndexError what)) /\
  (exists what,
     true_gim_loss (log_f_module_list, true_f_module_list) targets r
     = Raise (IndexError what)) /\
  (exists what,
     module_specific_cross_entropy (log_f_module_list, true_f_module_list)
       targets r module = Raise (IndexError what)).
Proof.
  intros H. destruct (device_empty _ H) as [what E].
  unfold multiple_cross_entropy, all_module_multiple_log_softmax,
    multiple_log_softmax_nll_loss, module_specific_log_softmax_nll_loss,
    true_gim_loss, module_specific_cross_entropy.
  rewrite E. cbn [mbind result_bind]. repeat split; exists what; reflexivity.
Qed.

Lemma empty_input_raises_witness :
  (([] : list (list Tensor)) = [] \/ head ([] : list (list Tensor)) = Some []) /\
  exists what,
    all_module_multiple_log_softmax ([] : list (list Tensor)) tt Mean
    = Raise (IndexError what).
Proof.
  split; [left; reflexivity|].
  destruct (empty_input_raises tt Mean [] [] 0%Z (or_introl eq_refl))
    as (_ & H & _).
  exact H.
Defined.

Lemma index_Z_last {A} what (l : list A) (x : A) :
  index_Z what (l ++ [x]) (-1) = Ok x.
Proof.
  unfold index_Z. cbn [Z.leb Z.compare]. rewrite length_app. cbn [length].
  destruct (Z.leb_spec (- Z.of_nat (length l + 1)) (-1)); [|lia].
  replace (Z.to_nat (Z.of_nat (length l + 1) + -1)) with (length l) by lia.
  apply index_Some, list_lookup_middle, eq_refl.
Qed.

Lemma index_Z_out_of_range {A} what (l : list A) (i : Z) :
  (Z.of_nat (length l) <= i \/ i < - Z.of_nat (length l))%Z ->
  index_Z what l i = Raise (IndexError what).
Proof.
  intros H. unfold index_Z, index.
  destruct (Z.leb_spec 0 i).
  - rewrite lookup_ge_None_2; [reflexivity | lia].
  - destruct (Z.leb_spec (- Z.of_nat (length l)) i); [lia | reflexivity].
Qed.

(** X10. [module_specific_cross_entropy] with the default [module=-1] takes
    the last list of predictions and the last list of targets, each from its
    own list, and sums the cross entropies of their pairs; an index at or
    past the number of modules, or below its negative, raises [IndexError]. *)
Theorem module_specific_cross_entropy_index {T : Type} (targets : T)
    (r : reduction) (modules : list (list Tensor)) (log_f_list : list Tensor)
    (trues : list (list LongTensor)) (true_f_list : list LongTensor) :
  device (modules ++ [log_f_list]) = Ok tt ->
  module_specific_cross_entropy (modules ++ [log_f_list], trues ++ [true_f_list])
    targets r (-1)
  = (losses ← mapM (fun p => cross_entropy p.1 p.2 r) (zip log_f_list true_f_list);
     Ok (xsum losses)) /\
  (forall module : Z,
     (Z.of_nat (length (modules ++ [log_f_list])) <= module
      \/ module < - Z.of_nat (length (modules ++ [log_f_list])))%Z ->
     module_specific_cross_entropy
       (modules ++ [log_f_list], trues ++ [true_f_list]) targets r module
     = Raise (IndexError "log_f_module_list")).
Proof.
  intros Hd. split.
  - rewrite module_specific_cross_entropy_closed. cbn [fst snd].
    rewrite Hd, !index_Z_last. reflexivity.
  - intros module H. rewrite module_specific_cross_entropy_closed. cbn [fst snd].
    rewrite Hd. cbn [mbind result_bind].
    now rewrite (index_Z_out_of_range _ _ _ H).
Qed.

Lemma module_specific_cross_entropy_index_witness :
  device ([[ramp]] ++ [[ramp; ramp]]) = Ok tt /\
  module_specific_cross_entropy
    ([[ramp]] ++ [[ramp; ramp]], [] ++ [[labels 1 1 1 1]]) tt Mean (-1)
  = (losses ← mapM (fun p => cross_entropy p.1 p.2 Mean)
                (zip [ramp; ramp] [labels 1 1 1 1]);
     Ok (xsum losses)).
Proof.
  split; [reflexivity|].
  apply (module_specific_cross_entropy_index tt Mean [[ramp]] [ramp; ramp] []
           [labels 1 1 1 1] eq_refl).
Defined.

(** X9. [all_module_multiple_log_softmax] builds all-zero targets itself: it
    returns what [module_specific_log_softmax_nll_loss] returns when that is
    given, for every prediction, a target of the prediction's shape that is
    zero everywhere. *)
Theorem all_module_is_module_specific_with_zero_targets {T T' : Type}
    (targets : T) (targets' : T') (r : reduction)
    (log_f_module_list : list (list Tensor)) :
  all_module_multiple_log_softmax log_f_module_list targets r
  = module_specific_log_softmax_nll_loss
      (log_f_module_list, map (map torch_zeros) log_f_module_list) targets' r.
Proof.
  rewrite all_module_multiple_log_softmax_closed,
    module_specific_log_softmax_nll_loss_closed.
  cbn [fst snd]. destruct (device log_f_module_list); [|reflexivity].
  cbn [mbind result_bind].
  change (map (map torch_zeros) log_f_module_list)
    with (list_fmap _ _ (list_fmap _ _ torch_zeros) log_f_module_list).
  rewrite (mapM_zip_fmap (list_fmap _ _ torch_zeros)).
  rewrite length_fmap, Nat.sub_diag. cbn [replicate].
  match goal with
  | |- _ = mapM ?F _ ≫= _ =>
      rewrite (mapM_ext_result F
        (fun log_f_list =>
           losses ← mapM (fun log_fk => softmax_nll r log_fk (torch_zeros log_fk))
                      log_f_list;
           Ok (horizon_average (length log_f_list) losses)))
  end.
  - destruct (mapM _ log_f_module_list) as [vs|e]; [|reflexivity].
    cbn [mbind result_bind]. now rewrite app_nil_r.
  - intros ml. cbn [fst snd]. now rewrite (mapM_zip_fmap torch_zeros).
Qed.

(** ** One module with one horizon *)

Lemma forallb_const_true {A} (l : list A) : forallb (fun _ => true) l = true.
Proof. induction l; [reflexivity | assumption]. Qed.

Lemma labels_in_range_zeros (input log_fk : Tensor) :
  (0 < classes input)%nat -> labels_in_range input (torch_zeros log_fk) = true.
Proof.
  intros Hc. unfold labels_in_range. cbn [label torch_zeros].
  apply Nat.ltb_lt in Hc. rewrite Hc.
  rewrite forallb_const_true. cbn beta. rewrite forallb_const_true.
  cbn beta. apply forallb_const_true.
Qed.

Lemma softmax_nll_zeros_mean (t : Tensor) :
  (0 < classes t)%nat ->
  softmax_nll Mean t (torch_zeros t)
  = Ok (xdiv_nat
          (Finite (pos_sum (batch t) (height t) (width t)
             (fun b y x =>
                - ln (exp (entry t b O y x)
                      / rsum (classes t) (fun j => exp (entry t b j y x))
                      + epsilon))))
          (positions t)).
Proof.
  intros Hc. unfold softmax_nll, nll_loss.
  cbn [batch height width classes entry torch_log_plus torch_softmax torch_zeros
       lbatch lheight lwidth label].
  rewrite !Nat.eqb_refl. cbn [negb andb].
  rewrite (labels_in_range_zeros _ t) by exact Hc. reflexivity.
Qed.

Lemma all_module_single {T : Type} (targets : T) (r : reduction) (t : Tensor) :
  all_module_multiple_log_softmax [[t]] targets r
  = (v ← softmax_nll r t (torch_zeros t); Ok [xdiv_nat (xadd (Finite 0) v) 1]).
Proof.
  unfold all_module_multiple_log_softmax, softmax_nll.
  cbn [device index lookup list_lookup mbind result_bind for_each].
  destruct (nll_loss _ (torch_zeros t) r); reflexivity.
Qed.

Lemma true_gim_single {T : Type} (targets : T) (r : reduction) (t : Tensor)
    (g : LongTensor) :
  true_gim_loss ([[t]], [[g]]) targets r
  = (v ← true_gim_term t; Ok (xadd (Finite 0) v)).
Proof.
  unfold true_gim_loss.
  cbn [device index lookup list_lookup mbind result_bind for_each zip zip_with].
  destruct (true_gim_term t); reflexivity.
Qed.

Lemma xpos_sum_ext b y x (f g : nat -> nat -> nat -> xreal) :
  (forall i j k, f i j k = g i j k) -> xpos_sum b y x f = xpos_sum b y x g.
Proof.
  intros H. unfold xpos_sum.
  apply xsum_n_ext. intros i. apply xsum_n_ext. intros j.
  apply xsum_n_ext. intros k. apply H.
Qed.

Lemma positions_pos b y x :
  (0 < b * y * x)%nat -> (0 < b)%nat /\ (0 < y)%nat /\ (0 < x)%nat.
Proof. destruct b, y, x; cbn; lia. Qed.

Lemma xpos_sum_NInf b y x :
  (0 < b * y * x)%nat -> xpos_sum b y x (fun _ _ _ => NInf) = NInf.
Proof.
  intros H. apply positions_pos in H as (Hb & Hy & Hx). unfold xpos_sum.
  rewrite (xsum_n_NInf x Hx), (xsum_n_NInf y Hy). now apply xsum_n_NInf.
Qed.

Lemma xpos_sum_PInf b y x :
  (0 < b * y * x)%nat -> xpos_sum b y x (fun _ _ _ => PInf) = PInf.
Proof.
  intros H. apply positions_pos in H as (Hb & Hy & Hx). unfold xpos_sum.
  rewrite (xsum_n_PInf x Hx), (xsum_n_PInf y Hy). now apply xsum_n_PInf.
Qed.

Lemma xmean_const_finite b y x v :
  (0 < b * y * x)%nat -> xmean b y x (fun _ _ _ => Finite v) = Finite v.
Proof.
  intros H. unfold xmean. rewrite xpos_sum_finite, pos_sum_const.
  destruct (b * y * x)%nat as [|n] eqn:E; [lia|].
  cbn [xdiv_nat]. f_equal. field. apply not_0_INR. lia.
Qed.

(** X8. With a single class, so no negative sample, and at least one
    position, [true_gim_loss] of one module with one horizon is plus
    infinity (the log-sum-exp of the empty slice is minus infinity), while
    [all_module_multiple_log_softmax] gives [-log(1 + 1e-11)]. *)
Theorem zero_negatives_true_gim_infinite {T : Type} (targets : T) (r : reduction)
    (log_fk : Tensor) (true_fk : LongTensor) :
  classes log_fk = 1%nat ->
  (0 < positions log_fk)%nat ->
  true_gim_loss ([[log_fk]], [[true_fk]]) targets r = Ok PInf /\
  all_module_multiple_log_softmax [[log_fk]] targets Mean
  = Ok [Finite (- ln (1 + epsilon))].
Proof.
  intros Hc Hp. split.
  - rewrite true_gim_single. unfold true_gim_term. rewrite Hc. cbn [Nat.eqb].
    unfold xmean at 2.
    rewrite (xpos_sum_ext _ _ _ (logsumexp_negatives log_fk) (fun _ _ _ => NInf)).
    + rewrite (xpos_sum_NInf _ _ _ Hp). cbn [xdiv_nat].
      unfold xmean.
      rewrite (xpos_sum_ext _ _ _ _ (fun _ _ _ => PInf)) by reflexivity.
      rewrite (xpos_sum_PInf _ _ _ Hp). reflexivity.
    + intros i j k. unfold logsumexp_negatives. now rewrite Hc.
  - rewrite all_module_single, softmax_nll_zeros_mean by lia.
    cbn [mbind result_bind]. rewrite Hc.
    rewrite (pos_sum_ext _ _ _ _ (fun _ _ _ => - ln (1 + epsilon))).
    + rewrite pos_sum_const. unfold positions in *.
      destruct (batch log_fk * height log_fk * width log_fk)%nat as [|n] eqn:E;
        [lia|].
      cbn [xdiv_nat xadd]. change (INR 1) with 1. do 3 f_equal. field.
      apply not_0_INR. lia.
    + intros i j k. cbn [rsum]. do 3 f_equal.
      pose proof (exp_pos (entry log_fk i 0%nat j k)). field. lra.
Qed.

Lemma zero_negatives_true_gim_infinite_witness :
  classes (uniform 1 1 1 1 0) = 1%nat /\
  (0 < positions (uniform 1 1 1 1 0))%nat /\
  true_gim_loss ([[uniform 1 1 1 1 0]], [[labels 1 1 1 0]]) tt Mean = Ok PInf /\
  all_module_multiple_log_softmax [[uniform 1 1 1 1 0]] tt Mean
  = Ok [Finite (- ln (1 + epsilon))].
Proof.
  split; [reflexivity|]. split; [cbn; lia|].
  apply (zero_negatives_true_gim_infinite tt Mean (uniform 1 1 1 1 0)
           (labels 1 1 1 0)); [reflexivity | cbn; lia].
Defined.

End LossFacts.
